(** * AppSync cache eviction from a Lambda data source

    A shallow embedding of [cdk/fruit-api.ts]: the two response
    templates that forward eviction instructions to the API cache (the
    VTL mapping template of [PickFruitVtlResolver] and the [response]
    function of [PickFruitJSResolver]), the Lambda handlers that emit
    the instructions, and the Lambda handler behind [Query.fruit].

    Values exchanged between Lambda and AppSync are JSON documents; the
    result a response template receives is a JSON object.  The numbers
    of a document are integers ([bowlId] and [quantity] are integral);
    where a handler computes with one, it computes with the double
    nearest to it, which is the number itself below 2^53.  The five
    second [setTimeout] at the head of every handler has no effect on
    values and is left out. *)

From Stdlib Require Import String Ascii List ZArith Bool Lia.
From Stdlib Require Import DecimalString DecimalPos QArith Qround Qpower Qabs.
Import ListNotations.

Local Close Scope Q_scope.
Local Open Scope string_scope.
Local Open Scope list_scope.

(** ** JSON values *)

#[local] Set Warnings "-register-all".

Inductive json : Type :=
| JNull
| JBool (b : bool)
| JNum (n : Z)
| JStr (s : string)
| JArr (items : list json)
| JObj (fields : list (string * json)).

(** A JSON object is its list of fields, in document order.  Objects
    received from Lambda have pairwise distinct keys; lookup takes the
    first binding and removal drops every binding of the key. *)
Definition object := list (string * json).

(** A JavaScript reference: [None] is [undefined]. *)
Definition ref := option json.

Fixpoint get_field (k : string) (o : object) : ref :=
  match o with
  | [] => None
  | (k', v) :: o' => if String.eqb k k' then Some v else get_field k o'
  end.

Definition remove_field (k : string) (o : object) : object :=
  filter (fun kv => negb (String.eqb k (fst kv))) o.

Definition keys (o : object) : list string := map fst o.

(** The reserved field that carries the eviction batch. *)
Definition sentinel : string := "__evictFromApiCache".

(** ** Value operations of the two template languages *)

Module JS.

(** [ToBoolean]: the test of an [if]. *)
Definition truthy (v : json) : bool :=
  match v with
  | JNull => false
  | JBool b => b
  | JNum n => negb (n =? 0)%Z
  | JStr s => negb (String.eqb s "")
  | JArr _ | JObj _ => true
  end.

Definition truthy_ref (r : ref) : bool :=
  match r with
  | None => false
  | Some v => truthy v
  end.

(** [v.name] for a data property name ([error], [message], [type],
    [arguments], [bowlId]): only objects own such properties. *)
Definition prop (v : json) (name : string) : ref :=
  match v with
  | JObj o => get_field name o
  | _ => None
  end.

(** The property key of an array index. *)
Definition index_key (i : nat) : string :=
  NilEmpty.string_of_uint (Nat.to_uint i).

(** [v[i]] on a value that is neither [null] nor [undefined]. *)
Definition index (v : json) (i : nat) : ref :=
  match v with
  | JArr l => nth_error l i
  | JStr s => match String.get i s with
              | Some c => Some (JStr (String c EmptyString))
              | None => None
              end
  | JObj o => get_field (index_key i) o
  | _ => None
  end.

(** [a || b]. *)
Definition or (a b : ref) : ref := if truthy_ref a then a else b.

End JS.

Module VTL.

(** Velocity references evaluate to Java values; JSON [null] and a
    missing map entry are both Java [null], written [JNull]. *)
Definition isNull (v : json) : bool :=
  match v with
  | JNull => true
  | _ => false
  end.

(** [$v.name] and [$v['name']]: a map lookup, [null] elsewhere. *)
Definition prop (v : json) (name : string) : json :=
  match v with
  | JObj o => match get_field name o with
              | Some x => x
              | None => JNull
              end
  | _ => JNull
  end.

(** [$v[i]]: the element of a list.  Where there is no such element
    the model yields [null]; what the host makes of a tuple that is
    too short is not fixed by the template. *)
Definition index (v : json) (i : nat) : json :=
  match v with
  | JArr l => nth i l JNull
  | _ => JNull
  end.

(** What [#foreach] iterates over: the elements of a list, the values
    of a map, nothing for any other value. *)
Definition elements (v : json) : list json :=
  match v with
  | JArr l => l
  | JObj o => map snd o
  | _ => []
  end.

End VTL.

(** ** The resolver host

    A response template runs against the resolver context: it reads and
    mutates [ctx.result], the JSON object returned by the Lambda
    function, and talks to the platform through
    [extensions.evictFromApiCache] and [util.error]. *)

(** One call of [extensions.evictFromApiCache], with its three
    positional arguments. *)
Record eviction : Type := Evict {
  ev_operationType : ref;
  ev_fieldName : ref;
  ev_keyArguments : ref
}.

Record host : Type := Host {
  ctx_result : object;
  evicted : list eviction
}.

Inductive outcome (A : Type) : Type :=
| Returned (a : A)
| Raised (message type : ref)
| TypeError.

Arguments Returned {A} a.
Arguments Raised {A} message type.
Arguments TypeError {A}.

Definition M (A : Type) : Type := host -> outcome A * host.

Definition ret {A} (a : A) : M A := fun h => (Returned a, h).

Definition bind {A B} (m : M A) (k : A -> M B) : M B :=
  fun h =>
    match m h with
    | (Returned a, h') => k a h'
    | (Raised msg ty, h') => (Raised msg ty, h')
    | (TypeError, h') => (TypeError, h')
    end.

Declare Scope host_scope.
Delimit Scope host_scope with host.
Notation "x <- m ;; k" := (bind m (fun x => k))
  (at level 61, m at next level, right associativity) : host_scope.
Notation "m ;; k" := (bind m (fun _ => k))
  (at level 61, right associativity) : host_scope.
Local Open Scope host_scope.

(** [ctx.result] *)
Definition result : M object := fun h => (Returned (ctx_result h), h).

(** [extensions.evictFromApiCache(a, b, c)] *)
Definition evictFromApiCache (a b c : ref) : M unit :=
  fun h => (Returned tt,
            {| ctx_result := ctx_result h;
               evicted := evicted h ++ [Evict a b c] |}).

(** [util.error(message, type)]: aborts the template. *)
Definition util_error {A} (message type : ref) : M A :=
  fun h => (Raised message type, h).

Definition throw_TypeError {A} : M A := fun h => (TypeError, h).

(** [ctx.result.remove(k)] / [delete ctx.result.k] *)
Definition remove (k : string) : M unit :=
  fun h => (Returned tt,
            {| ctx_result := remove_field k (ctx_result h);
               evicted := evicted h |}).

Definition when (c : bool) (m : M unit) : M unit :=
  if c then m else ret tt.

Fixpoint foreach (l : list json) (body : json -> M unit) : M unit :=
  match l with
  | [] => ret tt
  | x :: l' => body x ;; foreach l' body
  end.

(** ** PickFruitVtlResolver *)

Module PickFruitVtlResolver.

Definition responseMappingTemplate : M object :=
  r <- result ;;
  let error := VTL.prop (JObj r) "error" in
  when (negb (VTL.isNull error))
       (util_error (Some (VTL.prop error "message"))
                   (Some (VTL.prop error "type"))) ;;
  r <- result ;;
  when (negb (VTL.isNull (VTL.prop (JObj r) sentinel)))
       (foreach (VTL.elements (VTL.prop (JObj r) sentinel))
          (fun evict =>
             evictFromApiCache (Some (VTL.index evict 0))
                               (Some (VTL.index evict 1))
                               (Some (VTL.index evict 2)))) ;;
  remove sentinel ;;
  result.

End PickFruitVtlResolver.

Abbreviation vtl_response := PickFruitVtlResolver.responseMappingTemplate.

(** ** PickFruitJSResolver *)

(** [evict[i]] inside the callback: reading a property of [null]
    throws. *)
Definition js_index (v : json) (i : nat) : M ref :=
  match v with
  | JNull => throw_TypeError
  | _ => ret (JS.index v i)
  end.

(** [x.forEach(f)] on a truthy value: only arrays have [forEach]. *)
Definition js_forEach (v : json) (f : json -> M unit) : M unit :=
  match v with
  | JArr l => foreach l f
  | _ => throw_TypeError
  end.

(** The arrow function handed to [forEach]. *)
Definition js_callback (evict : json) : M unit :=
  a <- js_index evict 0 ;;
  b <- js_index evict 1 ;;
  c <- js_index evict 2 ;;
  evictFromApiCache a b c.

Module PickFruitJSResolver.

Definition response : M object :=
  r <- result ;;
  match get_field "error" r with
  | Some error =>
      when (JS.truthy error)
           (util_error (JS.prop error "message") (JS.prop error "type"))
  | None => ret tt
  end ;;
  r <- result ;;
  match get_field sentinel r with
  | Some batch =>
      when (JS.truthy batch)
           (js_forEach batch js_callback ;;
            remove sentinel)
  | None => ret tt
  end ;;
  result.

End PickFruitJSResolver.

Abbreviation js_response := PickFruitJSResolver.response.

(** Running a template on an inbound Lambda result: what the resolver
    hands back, and the eviction calls made on the way. *)
Definition run {A} (m : M A) (r : object) : outcome A * list eviction :=
  let (o, h) := m {| ctx_result := r; evicted := [] |} in (o, evicted h).

(** Running a template again on the result it returned. *)
Definition twice (m : M object) : M object :=
  fun h =>
    match m h with
    | (Returned r', h') => m {| ctx_result := r'; evicted := evicted h' |}
    | (o, h') => (o, h')
    end.

(** ** Conversions used by the Lambda handlers *)

(** A JavaScript number with an integral value, when it is finite. *)
Inductive number : Type :=
| Num (n : Z)
| Infinity (negative : bool)
| NaN.

(** An integer in plain decimal. *)
Definition decimal (n : Z) : string := NilZero.string_of_int (Z.to_int n).

(** The double nearest to an integer, ties to even; beyond the largest
    double it is an infinity. *)
Definition nearest_double (n : Z) : number :=
  let a := Z.abs n in
  if (a <? 2 ^ 53)%Z then Num n
  else
    let k := (Z.log2 a - 52)%Z in
    let q := (a / 2 ^ k)%Z in
    let r := (a mod 2 ^ k)%Z in
    let q' := match (2 * r ?= 2 ^ k)%Z with
              | Lt => q
              | Gt => (q + 1)%Z
              | Eq => if Z.even q then q else (q + 1)%Z
              end in
    let v := (q' * 2 ^ k)%Z in
    if (2 ^ 1024 <=? v)%Z then Infinity (n <? 0)%Z
    else Num (Z.sgn n * v).

(** Whether the integer [m] is read as the double [v]. *)
Definition same_double (m v : Z) : bool :=
  match nearest_double m with
  | Num w => (w =? v)%Z
  | _ => false
  end.

(** The number of [k] digits that stands for the double [v] of [n]
    digits, if there is one: of the two candidates around [v] the one
    that is read as [v], the closer if both are, the even one on a
    tie. *)
Definition digits_at (v n k : Z) : option Z :=
  let scale := (10 ^ (n - k))%Z in
  let lo := (v / scale)%Z in
  let hi := (lo + 1)%Z in
  match same_double (lo * scale) v, same_double (hi * scale) v with
  | true, false => Some lo
  | false, true => Some hi
  | false, false => None
  | true, true =>
      match (v - lo * scale ?= hi * scale - v)%Z with
      | Lt => Some lo
      | Gt => Some hi
      | Eq => Some (if Z.even lo then lo else hi)
      end
  end.

(** The fewest digits that stand for the double [v], with the power of
    ten they are multiplied by. *)
Fixpoint shortest (v n k : Z) (fuel : nat) : Z * Z :=
  match fuel with
  | O => (v, 0%Z)
  | S fuel' =>
      if (n <=? k)%Z then (v, 0%Z)
      else match digits_at v n k with
           | Some s => (s, (n - k)%Z)
           | None => shortest v n (k + 1)%Z fuel'
           end
  end.

Fixpoint strip_zeros (fuel : nat) (s e : Z) : Z * Z :=
  match fuel with
  | O => (s, e)
  | S fuel' => if ((s mod 10 =? 0)%Z && negb (s =? 0)%Z)%bool
               then strip_zeros fuel' (s / 10)%Z (e + 1)%Z
               else (s, e)
  end.

Fixpoint zeros (n : nat) : string :=
  match n with
  | O => ""
  | S n' => String "0" (zeros n')
  end.

(** [String(v)] for a double [v] that is a positive integer or zero:
    every digit below 2^53; above, the fewest digits that give [v]
    back, followed by zeros up to 21 digits and by an exponent
    beyond. *)
Definition String_of_double (v : Z) : string :=
  if (v <? 2 ^ 53)%Z then decimal v
  else
    let (s0, e0) := shortest v (Z.of_nat (String.length (decimal v))) 1 17 in
    let (s, e) := strip_zeros 400 s0 e0 in
    let n := (Z.of_nat (String.length (decimal s)) + e)%Z in
    if (n <=? 21)%Z then (decimal s ++ zeros (Z.to_nat e))%string
    else match decimal s with
         | String d EmptyString =>
             String d ("e+" ++ decimal (n - 1))%string
         | String d rest =>
             String d ("." ++ rest ++ "e+" ++ decimal (n - 1))%string
         | EmptyString => ""
         end.

Definition String_of_numeric (x : number) : string :=
  match x with
  | Num v => if (v <? 0)%Z then String "-" (String_of_double (- v))
             else String_of_double v
  | Infinity true => "-Infinity"
  | Infinity false => "Infinity"
  | NaN => "NaN"
  end.

(** [String(n)] for the number of a document. *)
Definition String_of_number (n : Z) : string :=
  String_of_numeric (nearest_double n).

(** A number in the JSON text of a result: [NaN] and the infinities
    are written [null]. *)
Definition json_of_number (x : number) : json :=
  match x with
  | Num n => JNum n
  | Infinity _ | NaN => JNull
  end.

(** [String(v)]: arrays join the conversions of their elements with
    commas, [null] elements giving the empty string. *)
Fixpoint String_of (v : json) : string :=
  match v with
  | JNull => "null"
  | JBool true => "true"
  | JBool false => "false"
  | JNum n => String_of_number n
  | JStr s => s
  | JArr l =>
      let element x := match x with JNull => "" | _ => String_of x end in
      (fix join (l : list json) : string :=
         match l with
         | [] => ""
         | [x] => element x
         | x :: l' => (element x ++ "," ++ join l')%string
         end) l
  | JObj _ => "[object Object]"
  end.

Definition String_of_ref (r : ref) : string :=
  match r with
  | None => "undefined"
  | Some v => String_of v
  end.

(** White space that [parseInt] skips, among the ASCII characters. *)
Definition is_white (c : ascii) : bool :=
  match nat_of_ascii c with
  | 9 | 10 | 11 | 12 | 13 | 32 => true
  | _ => false
  end.

(** The value of a digit character below the radix. *)
Definition digit_value (radix : Z) (c : ascii) : option Z :=
  let n := Z.of_nat (nat_of_ascii c) in
  let d := if (48 <=? n)%Z && (n <=? 57)%Z then Some (n - 48)%Z
           else if (97 <=? n)%Z && (n <=? 122)%Z then Some (n - 87)%Z
           else if (65 <=? n)%Z && (n <=? 90)%Z then Some (n - 55)%Z
           else None in
  match d with
  | Some v => if (v <? radix)%Z then Some v else None
  | None => None
  end.

(** The longest prefix of digits, read most significant digit first;
    [None] while no digit has been read. *)
Fixpoint parse_digits (radix : Z) (s : string) (acc : option Z) : option Z :=
  match s with
  | EmptyString => acc
  | String c s' =>
      match digit_value radix c with
      | Some d =>
          parse_digits radix s'
            (Some (match acc with
                   | Some a => a * radix + d
                   | None => d
                   end)%Z)
      | None => acc
      end
  end.

Fixpoint skip_white (s : string) : string :=
  match s with
  | String c s' => if is_white c then skip_white s' else s
  | EmptyString => s
  end.

(** A leading [0x] or [0X] selects radix 16. *)
Definition strip_prefix (s : string) : Z * string :=
  match s with
  | String "0" (String "x" s') => (16%Z, s')
  | String "0" (String "X" s') => (16%Z, s')
  | _ => (10%Z, s)
  end.

(** The integer [parseInt(s)] reads, without a radix; [None] when
    there is no digit to read. *)
Definition parse_integer (s : string) : option Z :=
  let s := skip_white s in
  let (sign, s) :=
    match s with
    | String "-" s' => ((-1)%Z, s')
    | String "+" s' => (1%Z, s')
    | _ => (1%Z, s)
    end in
  let (radix, s) := strip_prefix s in
  option_map (Z.mul sign) (parse_digits radix s None).

(** [parseInt(s)]: the double nearest to the integer read, as Node
    gives it, and [NaN] when there is none. *)
Definition parseInt (s : string) : number :=
  match parse_integer s with
  | Some m => nearest_double m
  | None => NaN
  end.

(** ** Doubles

    [Math.random()] gives a double; a product of doubles is the double
    nearest to the exact product. *)

Inductive double : Type :=
| Finite (x : Q)
| Infinite (negative : bool).

(** The exponent [e] of a positive rational between [2^e] and
    [2^(e+1)]. *)
Definition binade (x : Q) : Z :=
  let e := (Z.log2 (Qnum x) - Z.log2 (Z.pos (Qden x)))%Z in
  if Qle_bool (2 ^ e)%Q x then e else (e - 1)%Z.

(** The nearest integer, the even one of two equally near. *)
Definition round_half_even (y : Q) : Z :=
  let f := Qfloor y in
  match (y - inject_Z f ?= 1 # 2)%Q with
  | Lt => f
  | Gt => (f + 1)%Z
  | Eq => if Z.even f then f else (f + 1)%Z
  end.

(** The double nearest to a rational, ties to even: 53 bits in the
    binade of the rational, multiples of [2^-1074] below [2^-1022], an
    infinity from [2^1024] on. *)
Definition nearest_double_Q (x : Q) : double :=
  let a := Qabs x in
  if Qeq_bool a 0 then Finite 0
  else
    let q := (Z.max (binade a) (-1022) - 52)%Z in
    let v := (inject_Z (round_half_even (a / 2 ^ q)) * 2 ^ q)%Q in
    if Qle_bool (2 ^ 1024)%Q v
    then Infinite (negb (Qle_bool 0 x))
    else Finite (if Qle_bool 0 x then v else - v)%Q.

(** Half the distance from 1 to the next double, which is the distance
    from the largest double below 1 to 1: [Math.random()] gives a
    double from 0 to [1 - epsilon_half]. *)
Definition epsilon_half : Q := (2 ^ (-53))%Q.

(** [r * n] for a double [r] and a length or a small constant [n]. *)
Definition times (r : Q) (n : Z) : double :=
  nearest_double_Q (r * inject_Z n)%Q.

(** [Math.floor(x)] *)
Definition Math_floor (x : double) : number :=
  match x with
  | Finite x => Num (Qfloor x)
  | Infinite negative => Infinity negative
  end.

(** [x + 1] for an integral [x]. *)
Definition plus_one (x : number) : number :=
  match x with
  | Num n => nearest_double (n + 1)
  | _ => x
  end.

(** [l[i]]: [undefined] outside the list. *)
Definition element (l : list string) (i : number) : option string :=
  match i with
  | Num i => if (i <? 0)%Z then None else nth_error l (Z.to_nat i)
  | _ => None
  end.

(** The JSON text of an object literal leaves out the members whose
    value is [undefined]. *)
Fixpoint literal (members : list (string * ref)) : object :=
  match members with
  | [] => []
  | (k, Some v) :: ms => (k, v) :: literal ms
  | (_, None) :: ms => literal ms
  end.

(** ** DynamoDB, as the handlers use it *)

(** An attribute value [{ S: ... }] or [{ N: ... }]; a value of any
    other type has neither member. *)
Record AttributeValue : Type := Attr {
  attr_S : option string;
  attr_N : option string
}.

Definition S_ (s : option string) : AttributeValue :=
  {| attr_S := s; attr_N := None |}.
Definition N_ (n : string) : AttributeValue :=
  {| attr_S := None; attr_N := Some n |}.

Definition Item := list (string * AttributeValue).

Fixpoint attribute (name : string) (i : Item) : option AttributeValue :=
  match i with
  | [] => None
  | (k, a) :: i' => if String.eqb name k then Some a else attribute name i'
  end.

(** [item.name?.S] and [item.name?.N] *)
Definition S_of (name : string) (i : Item) : option string :=
  match attribute name i with
  | Some a => attr_S a
  | None => None
  end.

Definition N_of (name : string) (i : Item) : option string :=
  match attribute name i with
  | Some a => attr_N a
  | None => None
  end.

Inductive Command : Type :=
| GetItemCommand (TableName : string) (Key : Item)
| PutItemCommand (TableName : string) (Item_ : Item).

(** The output of a command: [Item] is set by a [GetItemCommand] that
    found the key. *)
Record Output : Type := { Item_of : option Item }.

(** How a promise settles. *)
Inductive settled (A : Type) : Type :=
| Resolved (a : A)
| Rejected.

Arguments Resolved {A} a.
Arguments Rejected {A}.

(** The partition key of FruitTable, a number attribute. *)
Definition FruitTable_partitionKey : string := "bowlId".

(** ** The caching configuration of FruitResolver *)

Definition FruitResolver_typeName : string := "Query".
Definition FruitResolver_fieldName : string := "fruit".
Definition FruitResolver_cachingKeys : list string :=
  ["$context.arguments.bowlId"].

(** ** Lambda handlers *)

Definition fruits : list string :=
  ["apple"; "banana"; "orange"; "grape"; "mango"; "strawberry";
   "blueberry"; "raspberry"; "blackberry"; "pineapple"; "watermelon";
   "cantaloupe"; "honeydew"; "kiwi"; "papaya"; "peach"; "pear"; "plum";
   "cherry"; "apricot"; "lemon"; "lime"; "grapefruit"; "tangerine";
   "pomegranate"; "coconut"; "fig"; "guava"; "lychee"; "passion fruit";
   "dragon fruit"; "star fruit"; "persimmon"; "nectarine"; "cranberry";
   "gooseberry"; "mulberry"; "elderberry"; "boysenberry"; "kumquat";
   "clementine"; "mandarin"; "blood orange"; "plantain"; "date"; "prune";
   "raisin"; "currant"; "quince"; "jackfruit"].

(** [event.arguments?.bowlId || event.bowlId] *)
Definition bowlId_of (event : object) : ref :=
  JS.or (match get_field "arguments" event with
         | None | Some JNull => None
         | Some arguments => JS.prop arguments "bowlId"
         end)
        (get_field "bowlId" event).

(** [fruits[Math.floor(Math.random() * fruits.length)]], for the value
    [random] drawn. *)
Definition pick_fruitType (random : Q) : option string :=
  element fruits (Math_floor (times random (Z.of_nat (length fruits)))).

(** [Math.floor(Math.random() * 10) + 1] *)
Definition pick_quantity (random : Q) : number :=
  plus_one (Math_floor (times random 10)).

(** The command FruitFunction builds. *)
Definition FruitFunction_request (TABLE_NAME : string) (event : object)
  : Command :=
  GetItemCommand TABLE_NAME [("bowlId", N_ (String_of_ref (bowlId_of event)))].

Section Handlers.

(** [process.env.TABLE_NAME] *)
Variable TABLE_NAME : string.

(** [ddb.send]: the one request a handler sends, and how it settles. *)
Variable send : Command -> settled Output.

(** FruitFunction, the data source of [Query.fruit]: the command it
    sent and the settlement of its promise.  The value is given as
    AppSync receives it, in JSON: [NaN] is [null] there. *)
Definition FruitFunction_handler (event : object) : Command * settled json :=
  let get := FruitFunction_request TABLE_NAME event in
  (get,
   match send get with
   | Resolved result =>
       match Item_of result with
       | None => Resolved JNull
       | Some item =>
           Resolved (JObj
             [("type",
               match S_of "fruitType" item with
               | Some s => if String.eqb s "" then JNull else JStr s
               | None => JNull
               end);
              ("quantity",
               match N_of "quantity" item with
               | Some n => if String.eqb n "" then JNull
                           else json_of_number (parseInt n)
               | None => JNull
               end)])
       end
   | Rejected => Resolved JNull
   end).

(** The body shared, word for word, by PickFruitVtlFunction and
    PickFruitJSFunction.  [random1] and [random2] are the two values
    drawn from [Math.random()].  The handler yields the command it
    sent and the settlement of its promise. *)
Definition pickFruit_evicting (random1 random2 : Q) (event : object)
  : Command * settled object :=
  let bowlId := bowlId_of event in
  let fruitType := pick_fruitType random1 in
  let quantity := pick_quantity random2 in
  let put := PutItemCommand TABLE_NAME
               [("bowlId", N_ (String_of_ref bowlId));
                ("fruitType", S_ fruitType);
                ("quantity", N_ (String_of_numeric quantity))] in
  (put,
   match send put with
   | Resolved _ =>
       Resolved (literal
         [(sentinel,
           Some (JArr [JArr [JStr "Query"; JStr "fruit";
                             JObj (literal
                               [("context.arguments.bowlId", bowlId)])]]));
          ("type", option_map JStr fruitType);
          ("quantity", Some (json_of_number quantity))])
   | Rejected => Rejected
   end).

Definition PickFruitVtlFunction_handler := pickFruit_evicting.
Definition PickFruitJSFunction_handler := pickFruit_evicting.

End Handlers.

(** ** The eviction batch and its wire form *)

Record EvictionInstruction : Type := {
  operationType : string;
  fieldName : string;
  keyArguments : object
}.

Definition EvictionBatch := list EvictionInstruction.

(** The tuple a handler writes: [[operationType, fieldName, keyArguments]]. *)
Definition encode_instruction (i : EvictionInstruction) : json :=
  JArr [JStr (operationType i); JStr (fieldName i); JObj (keyArguments i)].

Definition encode_batch (b : EvictionBatch) : json :=
  JArr (map encode_instruction b).

(** An instruction as a handler writes it down: the key arguments are
    members of an object literal, and a member may be [undefined]. *)
Record instruction_literal : Type := {
  lit_operationType : string;
  lit_fieldName : string;
  lit_keyArguments : list (string * ref)
}.

(** The instruction in the returned result, which AppSync receives as
    JSON text. *)
Definition returned_instruction (i : instruction_literal) : json :=
  JArr [JStr (lit_operationType i); JStr (lit_fieldName i);
        JObj (literal (lit_keyArguments i))].

Definition returned_batch (b : list instruction_literal) : json :=
  JArr (map returned_instruction b).

(** The instruction the evicting handlers write for an event. *)
Definition handler_instruction (event : object) : instruction_literal :=
  {| lit_operationType := "Query";
     lit_fieldName := "fruit";
     lit_keyArguments := [("context.arguments.bowlId", bowlId_of event)] |}.





(** ** Shapes of inbound results *)

(** The result carries no error: its [error] field is absent or
    [null]. *)
Definition error_unset (r : object) : bool :=
  match get_field "error" r with
  | None | Some JNull => true
  | Some _ => false
  end.

(** An instruction on the wire, with arbitrary components. *)
Definition tuple (i : json * json * json) : json :=
  let '(a, b, c) := i in JArr [a; b; c].

(** The eviction call that forwards an instruction. *)
Definition call_of (i : json * json * json) : eviction :=
  let '(a, b, c) := i in Evict (Some a) (Some b) (Some c).

Definition is_tuple (v : json) : bool :=
  match v with
  | JArr [_; _; _] => true
  | _ => false
  end.

(** The shape the data model gives an inbound result: an [error] that
    is absent, [null] or an object with [message] and [type], and a
    sentinel that is absent or a list of three-element tuples. *)
Definition augmented_result (r : object) : bool :=
  match get_field "error" r with
  | None | Some JNull => true
  | Some (JObj e) =>
      match get_field "message" e, get_field "type" e with
      | Some _, Some _ => true
      | _, _ => false
      end
  | Some _ => false
  end
  &&
  match get_field sentinel r with
  | None => true
  | Some (JArr l) => forallb is_tuple l
  | Some _ => false
  end.

(** The calls the VTL template makes on a result without error. *)
Definition vtl_calls (r : object) : list eviction :=
  let batch := VTL.prop (JObj r) sentinel in
  if VTL.isNull batch then []
  else map (fun evict => Evict (Some (VTL.index evict 0))
                               (Some (VTL.index evict 1))
                               (Some (VTL.index evict 2)))
           (VTL.elements batch).

(** ** Sample inputs *)

(** An inbound result whose error field is set to [false], with a
    batch. *)
Definition false_error_with_batch : object :=
  [("error", JBool false);
   (sentinel,
    JArr [tuple (JStr "Query", JStr "fruit",
                 JObj [("context.arguments.bowlId", JNum 1)])]);
   ("type", JStr "apple");
   ("quantity", JNum 5)].

(** An inbound result that carries both an error and a batch. *)
Definition failed_with_batch : object :=
  [("error", JObj [("message", JStr "write failed");
                   ("type", JStr "WriteError")]);
   (sentinel,
    JArr [tuple (JStr "Query", JStr "fruit",
                 JObj [("context.arguments.bowlId", JNum 1)])]);
   ("type", JStr "apple");
   ("quantity", JNum 5)].

(** A result whose sentinel is present and [null]. *)
Definition null_sentinel_result : object :=
  [(sentinel, JNull); ("type", JStr "apple"); ("quantity", JNum 5)].

(** An item whose fruit type is stored as the empty string. *)
Definition unnamed_fruit : Item :=
  [("bowlId", N_ "1"); ("fruitType", S_ (Some "")); ("quantity", N_ "4")].

(** * The rest of the construct *)

(** ** PickFruitFunction, the mutation that does not evict *)

Section PlainHandler.

Variable TABLE_NAME : string.
Variable send : Command -> settled Output.

Definition PickFruitFunction_handler (random1 random2 : Q) (event : object)
  : Command * settled object :=
  let bowlId := bowlId_of event in
  let fruitType := pick_fruitType random1 in
  let quantity := pick_quantity random2 in
  let put := PutItemCommand TABLE_NAME
               [("bowlId", N_ (String_of_ref bowlId));
                ("fruitType", S_ fruitType);
                ("quantity", N_ (String_of_numeric quantity))] in
  (put,
   match send put with
   | Resolved _ =>
       Resolved (literal
         [("type", option_map JStr fruitType);
          ("quantity", Some (json_of_number quantity))])
   | Rejected => Rejected
   end).

End PlainHandler.

(** ** PickFruitJSResolver: request *)

(** What [request] reads of the resolver context: [ctx.info.fieldName]
    and [ctx.args]. *)
Record request_context : Type := {
  info_fieldName : string;
  args : object
}.

Definition PickFruitJSResolver_request (ctx : request_context) : object :=
  [("operation", JStr "Invoke");
   ("payload", JObj [("field", JStr (info_fieldName ctx));
                     ("arguments", JObj (args ctx))])].

(** The event of the Lambda invocation an [Invoke] request asks for:
    its payload. *)
Definition invoked_event (request : object) : option object :=
  match get_field "payload" request with
  | Some (JObj event) => Some event
  | _ => None
  end.

(** ** The VTL template as the article prints it

    [cache-invalidation-article.md] gives the response mapping template
    without the error test and with the remove step inside the [#if]. *)

Module Article.

Definition responseMappingTemplate : M object :=
  r <- result ;;
  when (negb (VTL.isNull (VTL.prop (JObj r) sentinel)))
       (foreach (VTL.elements (VTL.prop (JObj r) sentinel))
          (fun evict =>
             evictFromApiCache (Some (VTL.index evict 0))
                               (Some (VTL.index evict 1))
                               (Some (VTL.index evict 2))) ;;
        remove sentinel) ;;
  result.

End Article.

(** ** What the JS callback does to an element *)

(** The call [extensions.evictFromApiCache(evict[0], evict[1], evict[2])]
    for an element that is not [null]. *)
Definition js_call (evict : json) : eviction :=
  Evict (JS.index evict 0) (JS.index evict 1) (JS.index evict 2).

(** The elements [forEach] gets through before one is [null]. *)
Fixpoint before_null (l : list json) : list json :=
  match l with
  | [] => []
  | JNull :: _ => []
  | x :: l' => x :: before_null l'
  end.

(** ** The FruitApi construct

    What the constructor declares, as data: Lambda functions with the
    code they run, table grants, the API cache, data sources and
    resolvers. *)

Module Cdk.

Record FruitApiProps : Type := {
  name : string;
  table : string;
  schemaFile : string;
  enableCache : option bool;
  enableCacheEviction : option bool
}.

(** An optional flag in a condition. *)
Definition enabled (flag : option bool) : bool :=
  match flag with
  | Some true => true
  | _ => false
  end.

Inductive inline_code : Type :=
| FruitCode
| PickFruitCode
| PickFruitVtlCode
| PickFruitJSCode.

Record Function : Type := {
  function_id : string;
  runtime : string;
  handler : string;
  timeout : Z;
  environment_TABLE_NAME : string;
  code : inline_code
}.

Record GraphqlApi : Type := {
  api_name : string;
  definition : string;
  defaultAuthorization : string
}.

Inductive grant : Type :=
| grantReadData (function : string)
| grantWriteData (function : string).

Record CfnApiCache : Type := {
  apiCachingBehavior : string;
  type : string;
  cache_ttl : Z
}.

Record CachingConfig : Type := {
  ttl : Z;
  cachingKeys : list string
}.

Inductive resolver_code : Type :=
| default_templates
| lambdaResult
| vtl_template (responseMappingTemplate : M object)
| js_runtime (request : request_context -> object) (response : M object).

Record Resolver : Type := {
  resolver_id : string;
  typeName : string;
  fieldName : string;
  dataSource : string;
  cachingConfig : option CachingConfig;
  resolver : resolver_code
}.

Record FruitApi : Type := {
  functions : list Function;
  grants : list grant;
  api : GraphqlApi;
  cache : option CfnApiCache;
  dataSources : list (string * string);
  resolvers : list Resolver
}.

Definition construct (props : FruitApiProps) : FruitApi :=
  let lambda id seconds code :=
    {| function_id := id; runtime := "NODEJS_22_X";
       handler := "index.handler"; timeout := seconds;
       environment_TABLE_NAME := table props; code := code |} in
  let eviction := enabled (enableCacheEviction props) in
  {| functions :=
       [lambda "FruitFunction" 30%Z FruitCode;
        lambda "PickFruitFunction" 30%Z PickFruitCode]
       ++ (if eviction
           then [lambda "PickFruitVtlFunction" 10%Z PickFruitVtlCode;
                 lambda "PickFruitJSFunction" 10%Z PickFruitJSCode]
           else []);
     grants :=
       [grantReadData "FruitFunction"; grantWriteData "PickFruitFunction"]
       ++ (if eviction
           then [grantWriteData "PickFruitVtlFunction";
                 grantWriteData "PickFruitJSFunction"]
           else []);
     api := {| api_name := name props;
               definition := schemaFile props;
               defaultAuthorization := "API_KEY" |};
     cache :=
       if enabled (enableCache props)
       then Some {| apiCachingBehavior := "PER_RESOLVER_CACHING";
                    type := "SMALL";
                    cache_ttl := 300 |}
       else None;
     dataSources :=
       [("FruitDataSource", "FruitFunction");
        ("PickFruitDataSource", "PickFruitFunction")]
       ++ (if eviction
           then [("PickFruitVtlDataSource", "PickFruitVtlFunction");
                 ("PickFruitJSDataSource", "PickFruitJSFunction")]
           else []);
     resolvers :=
       [{| resolver_id := "FruitResolver";
           typeName := FruitResolver_typeName;
           fieldName := FruitResolver_fieldName;
           dataSource := "FruitDataSource";
           cachingConfig :=
             if enabled (enableCache props)
             then Some {| ttl := 300;
                          cachingKeys := FruitResolver_cachingKeys |}
             else None;
           resolver := default_templates |};
        {| resolver_id := "PickFruitResolver";
           typeName := "Mutation";
           fieldName := "pickFruit";
           dataSource := "PickFruitDataSource";
           cachingConfig := None;
           resolver := lambdaResult |}]
       ++ (if eviction
           then [{| resolver_id := "PickFruitVtlResolver";
                    typeName := "Mutation";
                    fieldName := "pickFruitVtl";
                    dataSource := "PickFruitVtlDataSource";
                    cachingConfig := None;
                    resolver := vtl_template vtl_response |};
                 {| resolver_id := "PickFruitJSResolver";
                    typeName := "Mutation";
                    fieldName := "pickFruitJS";
                    dataSource := "PickFruitJSDataSource";
                    cachingConfig := None;
                    resolver := js_runtime PickFruitJSResolver_request
                                           js_response |}]
           else []) |}.

(** The command the inline code of a function sends to the table. *)
Definition sent (c : inline_code) (TABLE_NAME : string)
  (send : Command -> settled Output) (random1 random2 : Q) (event : object)
  : Command :=
  match c with
  | FruitCode => fst (FruitFunction_handler TABLE_NAME send event)
  | PickFruitCode =>
      fst (PickFruitFunction_handler TABLE_NAME send random1 random2 event)
  | PickFruitVtlCode =>
      fst (PickFruitVtlFunction_handler TABLE_NAME send random1 random2 event)
  | PickFruitJSCode =>
      fst (PickFruitJSFunction_handler TABLE_NAME send random1 random2 event)
  end.

End Cdk.

Definition is_write (c : Command) : bool :=
  match c with
  | PutItemCommand _ _ => true
  | GetItemCommand _ _ => false
  end.

Definition table_of (c : Command) : string :=
  match c with
  | PutItemCommand t _ => t
  | GetItemCommand t _ => t
  end.

(** What the evicting handlers add to the result of PickFruitFunction. *)
Definition emitted (bowlId : ref) : json :=
  JArr [JArr [JStr "Query"; JStr "fruit";
              JObj (literal [("context.arguments.bowlId", bowlId)])]].

(** Whether a value has [forEach]. *)
Definition is_array (v : json) : bool :=
  match v with
  | JArr _ => true
  | _ => false
  end.

(** The code behind a resolver: through its data source to the Lambda
    function. *)
Definition backing_code (api : Cdk.FruitApi) (r : Cdk.Resolver)
  : option Cdk.inline_code :=
  match find (fun d => String.eqb (fst d) (Cdk.dataSource r))
             (Cdk.dataSources api) with
  | Some (_, function) =>
      match find (fun f => String.eqb (Cdk.function_id f) function)
                 (Cdk.functions api) with
      | Some f => Some (Cdk.code f)
      | None => None
      end
  | None => None
  end.

(** * Properties *)

(** ** Objects *)

Lemma get_field_remove_same k o : get_field k (remove_field k o) = None.
Proof.
  induction o as [|[k' v] o IH]; simpl; [reflexivity|].
  destruct (String.eqb k k') eqn:E; simpl; [exact IH|].
  rewrite E. exact IH.
Qed.

Lemma get_field_remove_other k k' o :
  k' <> k -> get_field k' (remove_field k o) = get_field k' o.
Proof.
  intros Hne.
  induction o as [|[k0 v] o IH]; simpl; [reflexivity|].
  destruct (String.eqb k k0) eqn:E; simpl.
  - apply String.eqb_eq in E. subst k0.
    destruct (String.eqb k' k) eqn:E'; [|exact IH].
    apply String.eqb_eq in E'. contradiction.
  - rewrite IH. reflexivity.
Qed.

Lemma remove_field_absent k o :
  get_field k o = None -> remove_field k o = o.
Proof.
  induction o as [|[k' v] o IH]; simpl; [reflexivity|].
  destruct (String.eqb k k') eqn:E; [discriminate|].
  intros H. simpl. rewrite (IH H). reflexivity.
Qed.

Lemma get_field_app_none k o1 o2 :
  get_field k (o1 ++ o2) = None ->
  get_field k o1 = None /\ get_field k o2 = None.
Proof.
  induction o1 as [|[k' v] o1 IH]; simpl; [auto|].
  destruct (String.eqb k k'); [discriminate|exact IH].
Qed.

Lemma get_field_app k o1 o2 :
  get_field k (o1 ++ o2) =
  match get_field k o1 with
  | Some v => Some v
  | None => get_field k o2
  end.
Proof.
  induction o1 as [|[k' v] o1 IH]; simpl; [reflexivity|].
  destruct (String.eqb k k'); [reflexivity|exact IH].
Qed.

Lemma remove_field_insert k v o1 o2 :
  get_field k (o1 ++ o2) = None ->
  remove_field k (o1 ++ (k, v) :: o2) = o1 ++ o2.
Proof.
  intros H. destruct (get_field_app_none _ _ _ H) as [H1 H2].
  unfold remove_field. rewrite filter_app. simpl.
  rewrite String.eqb_refl. simpl.
  fold (remove_field k o1). fold (remove_field k o2).
  rewrite (remove_field_absent _ _ H1), (remove_field_absent _ _ H2).
  reflexivity.
Qed.

(** ** The host monad *)

Lemma foreach_evictions (f g k : json -> ref) l h :
  foreach l (fun evict => evictFromApiCache (f evict) (g evict) (k evict)) h
  = (Returned tt,
     {| ctx_result := ctx_result h;
        evicted := evicted h
                   ++ map (fun evict => Evict (f evict) (g evict) (k evict)) l |}).
Proof.
  revert h. induction l as [|x l IH]; intros h; simpl.
  - unfold ret. rewrite app_nil_r. destruct h; reflexivity.
  - unfold bind at 1. unfold evictFromApiCache at 1.
    rewrite IH. simpl. rewrite <- app_assoc. reflexivity.
Qed.

Lemma js_callback_tuple i h :
  js_callback (tuple i) h
  = (Returned tt,
     {| ctx_result := ctx_result h; evicted := evicted h ++ [call_of i] |}).
Proof. destruct i as [[a b] c]. reflexivity. Qed.

Lemma foreach_tuples batch h :
  foreach (map tuple batch) js_callback h
  = (Returned tt,
     {| ctx_result := ctx_result h;
        evicted := evicted h ++ map call_of batch |}).
Proof.
  revert h. induction batch as [|i batch IH]; intros h; simpl.
  - unfold ret. rewrite app_nil_r. destruct h; reflexivity.
  - unfold bind at 1. rewrite js_callback_tuple.
    rewrite IH. simpl. rewrite <- app_assoc. reflexivity.
Qed.

(** The callback never touches [ctx.result]. *)
Lemma js_callback_result evict h :
  ctx_result (snd (js_callback evict h)) = ctx_result h.
Proof.
  destruct evict; reflexivity.
Qed.

Lemma foreach_js_result l h :
  ctx_result (snd (foreach l js_callback h)) = ctx_result h.
Proof.
  revert h. induction l as [|x l IH]; intros h; simpl; [reflexivity|].
  unfold bind.
  pose proof (js_callback_result x h) as Hx.
  destruct (js_callback x h) as [[[]| |] h1]; simpl in *; try exact Hx.
  rewrite IH. exact Hx.
Qed.

(** ** What the VTL template does, on every inbound result *)

Lemma vtl_response_run r t :
  vtl_response {| ctx_result := r; evicted := t |}
  = let error := VTL.prop (JObj r) "error" in
    if VTL.isNull error
    then (Returned (remove_field sentinel r),
          {| ctx_result := remove_field sentinel r;
             evicted := t ++ vtl_calls r |})
    else (Raised (Some (VTL.prop error "message"))
                 (Some (VTL.prop error "type")),
          {| ctx_result := r; evicted := t |}).
Proof.
  unfold vtl_response, vtl_calls, bind, result, when, ret, remove.
  cbv zeta. cbn [ctx_result evicted].
  destruct (VTL.isNull (VTL.prop (JObj r) "error"));
    cbn [negb ctx_result evicted]; [|reflexivity].
  destruct (VTL.isNull (VTL.prop (JObj r) sentinel));
    cbn [negb ctx_result evicted].
  - rewrite app_nil_r. reflexivity.
  - rewrite foreach_evictions. reflexivity.
Qed.

(** ** What the JS template does *)

Lemma js_response_error r t e :
  get_field "error" r = Some e ->
  JS.truthy e = true ->
  js_response {| ctx_result := r; evicted := t |}
  = (Raised (JS.prop e "message") (JS.prop e "type"),
     {| ctx_result := r; evicted := t |}).
Proof.
  intros He Ht.
  unfold js_response, bind, result. cbn [ctx_result].
  rewrite He. unfold when. rewrite Ht. reflexivity.
Qed.

Lemma js_response_falsy r t :
  JS.truthy_ref (get_field "error" r) = false ->
  JS.truthy_ref (get_field sentinel r) = false ->
  js_response {| ctx_result := r; evicted := t |}
  = (Returned r, {| ctx_result := r; evicted := t |}).
Proof.
  intros He Hs.
  unfold js_response, bind, result, when, ret. cbn [ctx_result].
  destruct (get_field "error" r) as [e|]; cbn [JS.truthy_ref] in He;
    [rewrite He|]; cbn [ctx_result];
    (destruct (get_field sentinel r) as [b|]; cbn [JS.truthy_ref] in Hs;
     [rewrite Hs|]; reflexivity).
Qed.

Lemma js_response_batch r t batch :
  JS.truthy_ref (get_field "error" r) = false ->
  get_field sentinel r = Some (JArr (map tuple batch)) ->
  js_response {| ctx_result := r; evicted := t |}
  = (Returned (remove_field sentinel r),
     {| ctx_result := remove_field sentinel r;
        evicted := t ++ map call_of batch |}).
Proof.
  intros He Hs.
  unfold js_response, bind, result, when, ret. cbn [ctx_result].
  destruct (get_field "error" r) as [e|]; cbn [JS.truthy_ref] in He;
    [rewrite He|]; cbn [ctx_result];
    rewrite Hs; cbn [JS.truthy js_forEach];
    rewrite foreach_tuples; reflexivity.
Qed.

(** Whatever the JS template returns carries neither a truthy error
    nor a truthy sentinel. *)
Lemma js_response_returned r t r' h' :
  js_response {| ctx_result := r; evicted := t |} = (Returned r', h') ->
  ctx_result h' = r'
  /\ JS.truthy_ref (get_field "error" r') = false
  /\ JS.truthy_ref (get_field sentinel r') = false
  /\ (r' = r \/ r' = remove_field sentinel r).
Proof.
  unfold js_response, bind, result, when, ret. cbn [ctx_result].
  assert (Hgen :
    JS.truthy_ref (get_field "error" r) = false ->
    match
      match get_field sentinel r with
      | Some batch =>
          if JS.truthy batch
          then fun h =>
                 match js_forEach batch js_callback h with
                 | (Returned _, h1) => remove sentinel h1
                 | (Raised msg ty, h1) => (Raised msg ty, h1)
                 | (TypeError, h1) => (TypeError, h1)
                 end
          else fun h => (Returned tt, h)
      | None => fun h => (Returned tt, h)
      end {| ctx_result := r; evicted := t |}
    with
    | (Returned _, h1) => (Returned (ctx_result h1), h1)
    | (Raised msg ty, h1) => (Raised msg ty, h1)
    | (TypeError, h1) => (TypeError, h1)
    end = (Returned r', h') ->
    ctx_result h' = r'
    /\ JS.truthy_ref (get_field "error" r') = false
    /\ JS.truthy_ref (get_field sentinel r') = false
    /\ (r' = r \/ r' = remove_field sentinel r)).
  { intros He.
    destruct (get_field sentinel r) as [b|] eqn:Hs.
    - destruct (JS.truthy b) eqn:Hb.
      + destruct b; cbn [js_forEach throw_TypeError]; try discriminate.
        pose proof (foreach_js_result items {| ctx_result := r; evicted := t |})
          as Hr.
        destruct (foreach items js_callback {| ctx_result := r; evicted := t |})
          as [[[]| |] h1]; try discriminate.
        cbn [snd ctx_result] in Hr. unfold remove. rewrite Hr.
        cbn [ctx_result]. intros H. inversion H; subst. cbn [ctx_result].
        split; [reflexivity|]. split; [|split].
        * rewrite get_field_remove_other; [exact He|discriminate].
        * rewrite get_field_remove_same. reflexivity.
        * right. reflexivity.
      + intros H. inversion H; subst. cbn [ctx_result].
        rewrite Hs. auto.
    - intros H. inversion H; subst. cbn [ctx_result].
      rewrite Hs. auto. }
  destruct (get_field "error" r) as [e|] eqn:He.
  - destruct (JS.truthy e) eqn:Ht; [discriminate|].
    cbn [ctx_result]. apply Hgen. exact Ht.
  - cbn [ctx_result]. apply Hgen. reflexivity.
Qed.

(** ** Results without error *)

Lemma error_unset_vtl r :
  error_unset r = true -> VTL.isNull (VTL.prop (JObj r) "error") = true.
Proof.
  unfold error_unset, VTL.prop.
  destruct (get_field "error" r) as [[]|]; intros H;
    try discriminate; reflexivity.
Qed.

Lemma error_unset_js r :
  error_unset r = true -> JS.truthy_ref (get_field "error" r) = false.
Proof.
  unfold error_unset.
  destruct (get_field "error" r) as [[]|]; intros H;
    try discriminate; reflexivity.
Qed.

Lemma truthy_not_null e : JS.truthy e = true -> VTL.isNull e = false.
Proof. destruct e; simpl; intros H; try discriminate; reflexivity. Qed.

Lemma vtl_calls_absent r : get_field sentinel r = None -> vtl_calls r = [].
Proof. intros H. unfold vtl_calls, VTL.prop. rewrite H. reflexivity. Qed.

Lemma vtl_calls_batch r batch :
  get_field sentinel r = Some (JArr (map tuple batch)) ->
  vtl_calls r = map call_of batch.
Proof.
  intros H. unfold vtl_calls, VTL.prop. rewrite H.
  cbn [VTL.isNull VTL.elements]. rewrite map_map.
  apply map_ext. intros [[a b] c]. reflexivity.
Qed.

Lemma tuples_of l :
  forallb is_tuple l = true -> exists batch, l = map tuple batch.
Proof.
  induction l as [|x l IH]; simpl; intros H.
  - exists []. reflexivity.
  - apply andb_true_iff in H. destruct H as [Hx Hl].
    destruct (IH Hl) as [batch ->].
    destruct x as [| | | |[|a [|b [|c [|d items]]]]|]; try discriminate.
    exists ((a, b, c) :: batch). reflexivity.
Qed.

Lemma get_field_insert_other k k' v o1 o2 :
  k <> k' ->
  get_field k (o1 ++ (k', v) :: o2) = get_field k (o1 ++ o2).
Proof.
  intros Hne. rewrite !get_field_app. simpl.
  destruct (String.eqb k k') eqn:E; [|reflexivity].
  apply String.eqb_eq in E. contradiction.
Qed.

Lemma run_eq {A} (m : M A) r :
  run m r = (fst (m {| ctx_result := r; evicted := [] |}),
             evicted (snd (m {| ctx_result := r; evicted := [] |}))).
Proof.
  unfold run. destruct (m {| ctx_result := r; evicted := [] |}). reflexivity.
Qed.

Lemma run_vtl_response r :
  run vtl_response r
  = let error := VTL.prop (JObj r) "error" in
    if VTL.isNull error
    then (Returned (remove_field sentinel r), vtl_calls r)
    else (Raised (Some (VTL.prop error "message"))
                 (Some (VTL.prop error "type")), []).
Proof.
  rewrite run_eq, vtl_response_run. cbv zeta.
  destruct (VTL.isNull (VTL.prop (JObj r) "error")); reflexivity.
Qed.

(** Running the VTL template again changes nothing. *)
Lemma vtl_response_twice r :
  run (twice vtl_response) r = run vtl_response r.
Proof.
  rewrite !run_eq. unfold twice. rewrite vtl_response_run. cbv zeta.
  destruct (VTL.isNull (VTL.prop (JObj r) "error")) eqn:E; [|reflexivity].
  rewrite vtl_response_run. cbv zeta.
  assert (Herr : VTL.prop (JObj (remove_field sentinel r)) "error"
                 = VTL.prop (JObj r) "error").
  { unfold VTL.prop. rewrite get_field_remove_other; [reflexivity|].
    discriminate. }
  rewrite Herr, E. cbn [fst snd evicted].
  rewrite (remove_field_absent sentinel (remove_field sentinel r))
    by apply get_field_remove_same.
  rewrite (vtl_calls_absent (remove_field sentinel r))
    by apply get_field_remove_same.
  rewrite app_nil_r. reflexivity.
Qed.

(** Running the JS template again changes nothing. *)
Lemma js_response_twice r :
  run (twice js_response) r = run js_response r.
Proof.
  rewrite !run_eq. unfold twice.
  destruct (js_response {| ctx_result := r; evicted := [] |})
    as [[r'| |] h'] eqn:E; try reflexivity.
  destruct (js_response_returned _ _ _ _ E) as (Hr & He & Hs & _).
  rewrite js_response_falsy by assumption. reflexivity.
Qed.

(** ** The Forwarder *)

(** C1, as stated, fails: a result may hold a batch of instructions and
    an error at once, and then neither template makes any eviction
    call. *)
Lemma C1_no_eviction_on_error_result :
  ~ (forall r batch,
       get_field sentinel r = Some (JArr (map tuple batch)) ->
       snd (run vtl_response r) = map call_of batch
       /\ snd (run js_response r) = map call_of batch).
Proof.
  intros H.
  destruct (H failed_with_batch
              [(JStr "Query", JStr "fruit",
                JObj [("context.arguments.bowlId", JNum 1)])]
              eq_refl) as [Hv _].
  vm_compute in Hv. discriminate Hv.
Qed.

(** C1 (amended): for every inbound result that carries no error and
    whose sentinel field holds a batch of instructions, the VTL template
    and the JS template each call the eviction primitive exactly once
    per instruction, in batch order, with the three components of the
    instruction as the three positional arguments, and return the
    result without the sentinel. *)
Theorem C1_one_eviction_per_instruction r batch :
  error_unset r = true ->
  get_field sentinel r = Some (JArr (map tuple batch)) ->
  run vtl_response r = (Returned (remove_field sentinel r), map call_of batch)
  /\ run js_response r = (Returned (remove_field sentinel r), map call_of batch).
Proof.
  intros He Hs. split.
  - rewrite run_vtl_response. cbv zeta.
    rewrite (error_unset_vtl _ He), (vtl_calls_batch _ _ Hs). reflexivity.
  - rewrite run_eq, (js_response_batch r [] batch (error_unset_js _ He) Hs).
    reflexivity.
Qed.

Lemma C1_one_eviction_per_instruction_witness :
  let r := [(sentinel,
             JArr [tuple (JStr "Query", JStr "fruit",
                          JObj [("context.arguments.bowlId", JNum 1)]);
                   tuple (JStr "Query", JStr "fruit",
                          JObj [("context.arguments.bowlId", JNum 2)])]);
            ("type", JStr "apple"); ("quantity", JNum 5)] in
  let batch := [(JStr "Query", JStr "fruit",
                 JObj [("context.arguments.bowlId", JNum 1)]);
                (JStr "Query", JStr "fruit",
                 JObj [("context.arguments.bowlId", JNum 2)])] in
  run vtl_response r = (Returned (remove_field sentinel r), map call_of batch)
  /\ run js_response r = (Returned (remove_field sentinel r), map call_of batch).
Proof.
  intros r batch.
  apply (C1_one_eviction_per_instruction r batch); reflexivity.
Defined.

(** C2: on a result whose sentinel field is present and [null] the JS
    template returns the result as it came, sentinel included, where
    the VTL template returns it without the sentinel. *)
Theorem C2_js_returns_null_sentinel :
  run js_response null_sentinel_result = (Returned null_sentinel_result, [])
  /\ get_field sentinel null_sentinel_result = Some JNull
  /\ run vtl_response null_sentinel_result
     = (Returned [("type", JStr "apple"); ("quantity", JNum 5)], []).
Proof. split; [|split]; reflexivity. Qed.

(** Every other field goes through the VTL template unchanged, and the
    sentinel never does. *)
Lemma vtl_response_frame r r' calls :
  run vtl_response r = (Returned r', calls) ->
  get_field sentinel r' = None
  /\ forall k, k <> sentinel -> get_field k r' = get_field k r.
Proof.
  rewrite run_vtl_response. cbv zeta.
  destruct (VTL.isNull (VTL.prop (JObj r) "error")); [|discriminate].
  intros H. inversion H; subst. split.
  - apply get_field_remove_same.
  - intros k Hk. apply get_field_remove_other. exact Hk.
Qed.

(** Every other field goes through the JS template unchanged. *)
Lemma js_response_frame r r' calls :
  run js_response r = (Returned r', calls) ->
  forall k, k <> sentinel -> get_field k r' = get_field k r.
Proof.
  rewrite run_eq.
  destruct (js_response {| ctx_result := r; evicted := [] |})
    as [o h'] eqn:E.
  cbn [fst snd]. intros H. inversion H; subst.
  destruct (js_response_returned _ _ _ _ E) as (_ & _ & _ & [->| ->]);
    intros k Hk; [reflexivity|].
  apply get_field_remove_other. exact Hk.
Qed.

(** C3, as stated, fails: an error field set to [false] is not raised
    by the JS template, which goes on to the sentinel, makes the
    eviction call of the batch and returns the result. *)
Lemma C3_false_error_is_not_raised :
  ~ (forall r e,
       get_field "error" r = Some e ->
       (exists message type, run vtl_response r = (Raised message type, []))
       /\ (exists message type, run js_response r = (Raised message type, []))).
Proof.
  intros H.
  destruct (H false_error_with_batch (JBool false) eq_refl)
    as [_ (message & type & Hj)].
  vm_compute in Hj. discriminate Hj.
Qed.

(** C3 (amended): for every inbound result whose error field is set,
    the VTL template raises that error, with its message and type,
    through [util.error] before it looks at the sentinel and makes no
    eviction call when the error is not null; the JS template does so
    when the error is truthy, as an error object is.  On an error that
    is set and falsy the JS template raises nothing: it makes the
    eviction calls of the batch and returns the result. *)
Theorem C3_set_error_raised_before_eviction r e :
  get_field "error" r = Some e ->
  (VTL.isNull e = false ->
   run vtl_response r
   = (Raised (Some (VTL.prop e "message")) (Some (VTL.prop e "type")), []))
  /\ (JS.truthy e = true ->
      run js_response r
      = (Raised (JS.prop e "message") (JS.prop e "type"), []))
  /\ (JS.truthy e = false ->
      forall batch,
        get_field sentinel r = Some (JArr (map tuple batch)) ->
        run js_response r
        = (Returned (remove_field sentinel r), map call_of batch)).
Proof.
  intros He. split; [|split].
  - intros Hn. rewrite run_vtl_response. cbv zeta.
    assert (Hp : VTL.prop (JObj r) "error" = e)
      by (unfold VTL.prop; rewrite He; reflexivity).
    rewrite Hp, Hn. reflexivity.
  - intros Ht. rewrite run_eq, (js_response_error r [] e He Ht). reflexivity.
  - intros Hf batch Hs.
    assert (Hr : JS.truthy_ref (get_field "error" r) = false)
      by (rewrite He; exact Hf).
    rewrite run_eq, (js_response_batch r [] batch Hr Hs). reflexivity.
Qed.

Lemma C3_set_error_raised_before_eviction_witness :
  run vtl_response failed_with_batch
  = (Raised (Some (JStr "write failed")) (Some (JStr "WriteError")), [])
  /\ run js_response failed_with_batch
     = (Raised (Some (JStr "write failed")) (Some (JStr "WriteError")), [])
  /\ run vtl_response false_error_with_batch
     = (Raised (Some JNull) (Some JNull), [])
  /\ run js_response false_error_with_batch
     = (Returned [("error", JBool false); ("type", JStr "apple");
                  ("quantity", JNum 5)],
        [Evict (Some (JStr "Query")) (Some (JStr "fruit"))
               (Some (JObj [("context.arguments.bowlId", JNum 1)]))]).
Proof.
  destruct (C3_set_error_raised_before_eviction failed_with_batch
              (JObj [("message", JStr "write failed");
                     ("type", JStr "WriteError")]) eq_refl)
    as (Hv & Hj & _).
  destruct (C3_set_error_raised_before_eviction false_error_with_batch
              (JBool false) eq_refl)
    as (Hv' & _ & Hj').
  split; [apply Hv; reflexivity|].
  split; [apply Hj; reflexivity|].
  split; [apply Hv'; reflexivity|].
  apply (Hj' eq_refl
           [(JStr "Query", JStr "fruit",
             JObj [("context.arguments.bowlId", JNum 1)])]).
  reflexivity.
Defined.

(** C4: two inbound results that differ only in that one lacks the
    sentinel field and the other holds an empty batch are treated alike
    by the VTL template and by the JS template: the same outcome, no
    eviction call, and, when no error is carried, the same cleaned
    result. *)
Theorem C4_absent_same_as_empty_batch pre post :
  get_field sentinel (pre ++ post) = None ->
  let absent := pre ++ post in
  let empty := pre ++ (sentinel, JArr []) :: post in
  run vtl_response empty = run vtl_response absent
  /\ run js_response empty = run js_response absent
  /\ snd (run vtl_response absent) = []
  /\ snd (run js_response absent) = []
  /\ (error_unset absent = true ->
      run vtl_response absent = (Returned absent, [])
      /\ run js_response absent = (Returned absent, [])).
Proof.
  intros Habs. cbv zeta.
  set (absent := pre ++ post) in *.
  set (empty := pre ++ (sentinel, JArr []) :: post).
  assert (Herr : get_field "error" empty = get_field "error" absent)
    by (apply get_field_insert_other; discriminate).
  assert (Hrm : remove_field sentinel empty = absent)
    by (apply remove_field_insert; exact Habs).
  assert (Hs : get_field sentinel empty = Some (JArr (map tuple []))).
  { unfold empty. rewrite get_field_app.
    destruct (get_field_app_none _ _ _ Habs) as [-> _].
    reflexivity. }
  assert (Hvtl : run vtl_response empty = run vtl_response absent).
  { rewrite !run_vtl_response. cbv zeta.
    assert (Hp : VTL.prop (JObj empty) "error"
                 = VTL.prop (JObj absent) "error")
      by (unfold VTL.prop; rewrite Herr; reflexivity).
    rewrite Hp, Hrm, (remove_field_absent _ _ Habs).
    rewrite (vtl_calls_batch _ _ Hs), (vtl_calls_absent _ Habs).
    reflexivity. }
  assert (Hjs : run js_response empty = run js_response absent).
  { rewrite !run_eq.
    destruct (get_field "error" absent) as [e|] eqn:He.
    - destruct (JS.truthy e) eqn:Ht.
      + rewrite (js_response_error empty [] e), (js_response_error absent [] e)
          by congruence.
        reflexivity.
      + rewrite (js_response_batch empty [] []), (js_response_falsy absent [])
          by (rewrite ?Herr, ?He, ?Habs; auto).
        rewrite Hrm. reflexivity.
    - rewrite (js_response_batch empty [] []), (js_response_falsy absent [])
        by (rewrite ?Herr, ?He, ?Habs; auto).
      rewrite Hrm. reflexivity. }
  assert (Hv0 : snd (run vtl_response absent) = []).
  { rewrite run_vtl_response. cbv zeta.
    rewrite (vtl_calls_absent _ Habs).
    destruct (VTL.isNull (VTL.prop (JObj absent) "error")); reflexivity. }
  assert (Hj0 : snd (run js_response absent) = []).
  { rewrite run_eq.
    destruct (get_field "error" absent) as [e|] eqn:He.
    - destruct (JS.truthy e) eqn:Ht.
      + rewrite (js_response_error absent [] e) by assumption. reflexivity.
      + rewrite (js_response_falsy absent [])
          by (rewrite ?He, ?Habs; auto).
        reflexivity.
    - rewrite (js_response_falsy absent []) by (rewrite ?He, ?Habs; auto).
      reflexivity. }
  split; [exact Hvtl|]. split; [exact Hjs|].
  split; [exact Hv0|]. split; [exact Hj0|].
  intros Hu. split.
  - rewrite run_vtl_response. cbv zeta.
    rewrite (error_unset_vtl _ Hu), (vtl_calls_absent _ Habs).
    rewrite (remove_field_absent _ _ Habs). reflexivity.
  - rewrite run_eq, (js_response_falsy absent []).
    + reflexivity.
    + apply error_unset_js. exact Hu.
    + rewrite Habs. reflexivity.
Qed.

Lemma C4_absent_same_as_empty_batch_witness :
  let absent := [("type", JStr "apple"); ("quantity", JNum 5)] in
  let empty := [("type", JStr "apple"); (sentinel, JArr []);
                ("quantity", JNum 5)] in
  run vtl_response empty = run vtl_response absent
  /\ run js_response empty = run js_response absent
  /\ snd (run vtl_response absent) = []
  /\ snd (run js_response absent) = []
  /\ (error_unset absent = true ->
      run vtl_response absent = (Returned absent, [])
      /\ run js_response absent = (Returned absent, [])).
Proof.
  apply (C4_absent_same_as_empty_batch
           [("type", JStr "apple")] [("quantity", JNum 5)]).
  reflexivity.
Defined.

(** C5, as stated, fails: on a result whose error field is [false] the
    VTL template raises an error, since the field is not null, and the
    JS template returns the result, since the field is falsy. *)
Lemma C5_templates_differ_on_false_error :
  ~ (forall r, run vtl_response r = run js_response r).
Proof.
  intros H.
  specialize (H [("error", JBool false); ("type", JStr "apple")]).
  vm_compute in H. discriminate H.
Qed.

(** C5 (amended): on every inbound result of the shape of the data
    model (an error field that is absent, null or an error object with
    message and type; a sentinel field that is absent or a list of
    three-element tuples) the VTL template and the JS template have the
    same outcome and make the same eviction calls, in the same order
    and with the same arguments. *)
Theorem C5_templates_agree_on_augmented_results r :
  augmented_result r = true ->
  run vtl_response r = run js_response r.
Proof.
  unfold augmented_result. intros H.
  apply andb_true_iff in H. destruct H as [He Hs].
  assert (Hbatch : forall batch,
             error_unset r = true ->
             get_field sentinel r = Some (JArr (map tuple batch)) ->
             run vtl_response r = run js_response r).
  { intros batch Hu Hb.
    rewrite run_vtl_response, run_eq. cbv zeta.
    rewrite (error_unset_vtl _ Hu), (vtl_calls_batch _ _ Hb).
    rewrite (js_response_batch r [] batch (error_unset_js _ Hu) Hb).
    reflexivity. }
  assert (Habsent :
             error_unset r = true ->
             get_field sentinel r = None ->
             run vtl_response r = run js_response r).
  { intros Hu Hb.
    rewrite run_vtl_response, run_eq. cbv zeta.
    rewrite (error_unset_vtl _ Hu), (vtl_calls_absent _ Hb).
    rewrite (remove_field_absent _ _ Hb).
    rewrite (js_response_falsy r [] (error_unset_js _ Hu))
      by (rewrite Hb; reflexivity).
    reflexivity. }
  assert (Hforward :
             error_unset r = true -> run vtl_response r = run js_response r).
  { intros Hu.
    destruct (get_field sentinel r) as [[| | | |l|]|] eqn:Hb;
      try discriminate.
    - destruct (tuples_of l Hs) as [batch ->].
      apply (Hbatch batch Hu eq_refl).
    - apply (Habsent Hu eq_refl). }
  destruct (get_field "error" r) as [[| | | | |e]|] eqn:Herr;
    try discriminate;
    try (apply Hforward; unfold error_unset; rewrite Herr; reflexivity).
  destruct (get_field "message" e) as [m|] eqn:Hm; [|discriminate].
  destruct (get_field "type" e) as [t|] eqn:Hty; [|discriminate].
  rewrite run_vtl_response, run_eq. cbv zeta.
  assert (Hp : VTL.prop (JObj r) "error" = JObj e)
    by (unfold VTL.prop; rewrite Herr; reflexivity).
  rewrite Hp. cbn [VTL.isNull].
  rewrite (js_response_error r [] (JObj e) Herr eq_refl).
  unfold VTL.prop, JS.prop. rewrite Hm, Hty. reflexivity.
Qed.

Lemma C5_templates_agree_on_augmented_results_witness :
  run vtl_response failed_with_batch = run js_response failed_with_batch.
Proof.
  apply (C5_templates_agree_on_augmented_results failed_with_batch).
  reflexivity.
Defined.

(** C7, as stated, fails: a result without the sentinel field may carry
    an error, and then the templates raise it instead of returning the
    result unchanged. *)
Lemma C7_error_result_not_returned :
  ~ (forall r,
       get_field sentinel r = None ->
       run vtl_response r = (Returned r, [])
       /\ run js_response r = (Returned r, [])).
Proof.
  intros H.
  destruct (H [("error", JObj [("message", JStr "write failed");
                               ("type", JStr "WriteError")])]
              eq_refl) as [Hv _].
  vm_compute in Hv. discriminate Hv.
Qed.

(** C7 (amended): for every result that contains neither the sentinel
    field nor an error, each template makes no eviction call and
    returns the result unchanged; and for every input, running a
    template a second time on what it returned is the same as running
    it once. *)
Theorem C7_forwarder_idempotent r :
  (get_field sentinel r = None ->
   error_unset r = true ->
   run vtl_response r = (Returned r, [])
   /\ run js_response r = (Returned r, []))
  /\ run (twice vtl_response) r = run vtl_response r
  /\ run (twice js_response) r = run js_response r.
Proof.
  split; [|split].
  - intros Hs He. split.
    + rewrite run_vtl_response. cbv zeta.
      rewrite (error_unset_vtl _ He), (vtl_calls_absent _ Hs).
      rewrite (remove_field_absent _ _ Hs). reflexivity.
    + rewrite run_eq, (js_response_falsy r [] (error_unset_js _ He)).
      * reflexivity.
      * rewrite Hs. reflexivity.
  - apply vtl_response_twice.
  - apply js_response_twice.
Qed.

Lemma C7_forwarder_idempotent_witness :
  let r := [("type", JStr "apple"); ("quantity", JNum 5)] in
  run vtl_response r = (Returned r, [])
  /\ run js_response r = (Returned r, []).
Proof.
  intros r. apply (proj1 (C7_forwarder_idempotent r)); reflexivity.
Defined.

(** C9: for every inbound result without error, the VTL template runs
    its remove step whatever the sentinel holds: it returns the result
    with the sentinel field removed, and when the sentinel is present
    but null it does so without any eviction call. *)
Theorem C9_vtl_removal_unconditional r :
  VTL.isNull (VTL.prop (JObj r) "error") = true ->
  run vtl_response r = (Returned (remove_field sentinel r), vtl_calls r)
  /\ get_field sentinel (remove_field sentinel r) = None
  /\ (get_field sentinel r = Some JNull -> vtl_calls r = []).
Proof.
  intros He. split; [|split].
  - rewrite run_vtl_response. cbv zeta. rewrite He. reflexivity.
  - apply get_field_remove_same.
  - intros Hs. unfold vtl_calls, VTL.prop. rewrite Hs. reflexivity.
Qed.

Lemma C9_vtl_removal_unconditional_witness :
  run vtl_response null_sentinel_result
  = (Returned [("type", JStr "apple"); ("quantity", JNum 5)], []).
Proof.
  apply (proj1 (C9_vtl_removal_unconditional null_sentinel_result eq_refl)).
Defined.

(** ** The wire form of a batch *)





(** What a resolved evicting handler puts under the sentinel. *)
Lemma handler_batch TABLE_NAME send random1 random2 event result :
  snd (pickFruit_evicting TABLE_NAME send random1 random2 event)
  = Resolved result ->
  get_field sentinel result
  = Some (returned_batch [handler_instruction event]).
Proof.
  unfold pickFruit_evicting. cbv zeta. cbn [snd].
  destruct (send _); [|discriminate].
  intros H. inversion H. reflexivity.
Qed.




(** ** Printing and reading integers *)

Ltac read_digit :=
  cbn [NilEmpty.string_of_uint parse_digits];
  match goal with
  | |- context [digit_value ?radix ?c] =>
      let v := eval vm_compute in (digit_value radix c) in
      change (digit_value radix c) with v
  end;
  cbv iota beta.

Lemma parse_digits_acc d acc :
  parse_digits 10 (NilEmpty.string_of_uint d) (Some (Z.pos acc))
  = Some (Z.pos (Pos.of_uint_acc d acc)).
Proof.
  revert acc.
  induction d; intros acc; [reflexivity|..];
    read_digit; cbn [Pos.of_uint_acc];
    rewrite <- IHd; do 2 f_equal; lia.
Qed.

Lemma parse_digits_zero d :
  parse_digits 10 (NilEmpty.string_of_uint d) (Some 0%Z)
  = Some (Z.of_N (Pos.of_uint d)).
Proof.
  induction d; [reflexivity|..];
    read_digit; cbn [Pos.of_uint Z.mul Z.add Z.of_N];
    [exact IHd|..]; apply parse_digits_acc.
Qed.

Lemma parse_digits_uint d :
  d <> Decimal.Nil ->
  parse_digits 10 (NilEmpty.string_of_uint d) None
  = Some (Z.of_N (Pos.of_uint d)).
Proof.
  destruct d; intros Hd; [contradiction|..];
    read_digit; cbn [Pos.of_uint Z.of_N];
    [apply parse_digits_zero|..]; apply parse_digits_acc.
Qed.

(** A decimal numeral has no white space, sign or radix prefix to
    skip. *)
Lemma numeral_plain d :
  d <> Decimal.Nil ->
  let s := NilEmpty.string_of_uint d in
  skip_white s = s
  /\ strip_prefix s = (10%Z, s)
  /\ (forall s', s <> String "-" s')
  /\ (forall s', s <> String "+" s').
Proof.
  intros Hd.
  destruct d as [|d|d|d|d|d|d|d|d|d|d]; [contradiction|..];
    cbn [NilEmpty.string_of_uint];
    (split; [reflexivity|split; [|split; intros s'; discriminate]]).
  all: try reflexivity.
  destruct d; reflexivity.
Qed.

Lemma parse_integer_numeral d :
  d <> Decimal.Nil ->
  parse_integer (NilEmpty.string_of_uint d) = Some (Z.of_N (Pos.of_uint d))
  /\ parse_integer (String "-" (NilEmpty.string_of_uint d))
     = Some (- Z.of_N (Pos.of_uint d))%Z.
Proof.
  intros Hd.
  destruct (numeral_plain d Hd) as (Hw & Hp & Hm & Hplus).
  split.
  - unfold parse_integer. rewrite Hw.
    destruct (NilEmpty.string_of_uint d) as [|c s] eqn:E.
    + destruct d; [contradiction|discriminate..].
    + assert (Hsign :
        match String c s with
        | String "-" s' => ((-1)%Z, s')
        | String "+" s' => (1%Z, s')
        | _ => (1%Z, String c s)
        end = (1%Z, String c s)).
      { destruct (Ascii.ascii_dec c "-") as [->|Hc];
          [exfalso; apply (Hm s); reflexivity|].
        destruct (Ascii.ascii_dec c "+") as [->|Hc'];
          [exfalso; apply (Hplus s); reflexivity|].
        destruct c as [[|] [|] [|] [|] [|] [|] [|] [|]];
          try reflexivity; contradiction. }
      rewrite Hsign, Hp, <- E, (parse_digits_uint d Hd).
      cbn [option_map]. f_equal; lia.
  - unfold parse_integer. cbn [skip_white].
    change (is_white "-") with false. cbv iota.
    rewrite Hp, (parse_digits_uint d Hd).
    cbn [option_map]. f_equal; lia.
Qed.

(** The integer read from a plain decimal is the integer printed. *)
Lemma parse_integer_decimal n : parse_integer (decimal n) = Some n.
Proof.
  assert (Hnz : forall d, d <> Decimal.Nil ->
                  NilZero.string_of_uint d = NilEmpty.string_of_uint d)
    by (intros d Hd; destruct d; [contradiction|reflexivity..]).
  destruct n as [|p|p]; [reflexivity|..];
    pose proof (DecimalPos.Unsigned.to_uint_nonnil p) as Hp;
    destruct (parse_integer_numeral _ Hp) as [Hpos Hneg];
    rewrite (DecimalPos.Unsigned.of_to p) in Hpos, Hneg;
    unfold decimal, Z.to_int, NilZero.string_of_int;
    rewrite (Hnz _ Hp); assumption.
Qed.

(** An integer below 2^53 in magnitude is a double. *)
Lemma nearest_double_exact n :
  (Z.abs n < 2 ^ 53)%Z -> nearest_double n = Num n.
Proof.
  intros H. unfold nearest_double. cbv zeta.
  apply Z.ltb_lt in H. rewrite H. reflexivity.
Qed.

(** Such an integer is printed in plain decimal. *)
Lemma String_of_number_decimal n :
  (Z.abs n < 2 ^ 53)%Z -> String_of_number n = decimal n.
Proof.
  intros H. unfold String_of_number. rewrite (nearest_double_exact n H).
  unfold String_of_numeric, String_of_double.
  destruct (n <? 0)%Z eqn:En.
  - apply Z.ltb_lt in En.
    assert (Hv : (- n <? 2 ^ 53)%Z = true) by (apply Z.ltb_lt; lia).
    rewrite Hv. destruct n as [|p|p]; [lia|lia|reflexivity].
  - apply Z.ltb_ge in En.
    assert (Hv : (n <? 2 ^ 53)%Z = true) by (apply Z.ltb_lt; lia).
    rewrite Hv. reflexivity.
Qed.

(** Reading back a printed integer gives the integer, below 2^53. *)
Lemma parseInt_String_of_number n :
  (Z.abs n < 2 ^ 53)%Z -> parseInt (String_of_number n) = Num n.
Proof.
  intros H. rewrite (String_of_number_decimal n H).
  unfold parseInt. rewrite parse_integer_decimal.
  apply nearest_double_exact. exact H.
Qed.

(** Beyond 2^53 it gives the nearest double, which is printed with the
    fewest digits that tell it from its neighbours. *)
Example parseInt_rounds :
  parseInt "9007199254740993" = Num 9007199254740992
  /\ String_of_number 1152921504606846976 = "1152921504606847000"
  /\ String_of_number (10 ^ 21) = "1e+21"
  /\ String_of_number (2 ^ 70) = "1.1805916207174113e+21"
  /\ parseInt "" = NaN.
Proof. repeat split; vm_compute; reflexivity. Qed.

(** ** The Lambda handlers *)

(** An argument [bowlId] that is truthy is the [bowlId] of the
    handlers. *)
Lemma bowlId_of_argument event arguments b :
  get_field "arguments" event = Some (JObj arguments) ->
  get_field "bowlId" arguments = Some b ->
  JS.truthy b = true ->
  bowlId_of event = Some b.
Proof.
  intros Ha Hb Ht. unfold bowlId_of. rewrite Ha.
  unfold JS.prop, JS.or. rewrite Hb. cbn [JS.truthy_ref].
  rewrite Ht. reflexivity.
Qed.

(** C6: whenever PickFruitVtlFunction or PickFruitJSFunction succeeds
    on an invocation with a [bowlId], the one instruction it emits
    targets the type and field of FruitResolver, its [keyArguments]
    has the single key [context.arguments.bowlId], which is the caching
    key [$context.arguments.bowlId] declared for that resolver, and the
    value under that key is the [bowlId] whose string form was written
    as the partition key of the item. *)
Theorem C6_eviction_key_matches_caching_key
  TABLE_NAME send random1 random2 event b put result :
  bowlId_of event = Some b ->
  PickFruitVtlFunction_handler TABLE_NAME send random1 random2 event
  = (put, Resolved result)
  \/ PickFruitJSFunction_handler TABLE_NAME send random1 random2 event
     = (put, Resolved result) ->
  exists args item,
    get_field sentinel result
    = Some (encode_batch [{| operationType := FruitResolver_typeName;
                             fieldName := FruitResolver_fieldName;
                             keyArguments := args |}])
    /\ args = [("context.arguments.bowlId", b)]
    /\ map (String.append "$") (keys args) = FruitResolver_cachingKeys
    /\ put = PutItemCommand TABLE_NAME item
    /\ attribute FruitTable_partitionKey item = Some (N_ (String_of b)).
Proof.
  intros Hb H.
  assert (Hrun : pickFruit_evicting TABLE_NAME send random1 random2 event
                 = (put, Resolved result))
    by (destruct H as [H|H]; exact H).
  clear H. unfold pickFruit_evicting in Hrun. rewrite Hb in Hrun.
  cbv zeta in Hrun. inversion Hrun as [[Hput Hres]]. clear Hrun.
  rewrite Hput in Hres.
  destruct (send put) as [out|]; [|discriminate].
  inversion Hres as [Hresult]. clear Hres.
  eexists. eexists.
  split; [|split; [reflexivity|split; [reflexivity|split; [reflexivity|]]]];
    reflexivity.
Qed.

Lemma C6_eviction_key_matches_caching_key_witness :
  exists args item,
    get_field sentinel
      [(sentinel,
        JArr [JArr [JStr "Query"; JStr "fruit";
                    JObj [("context.arguments.bowlId", JNum 1)]]]);
       ("type", JStr "pear"); ("quantity", JNum 10)]
    = Some (encode_batch [{| operationType := FruitResolver_typeName;
                             fieldName := FruitResolver_fieldName;
                             keyArguments := args |}])
    /\ args = [("context.arguments.bowlId", JNum 1)]
    /\ map (String.append "$") (keys args) = FruitResolver_cachingKeys
    /\ PutItemCommand "FruitTable"
         [("bowlId", N_ "1"); ("fruitType", S_ (Some "pear"));
          ("quantity", N_ "10")]
       = PutItemCommand "FruitTable" item
    /\ attribute FruitTable_partitionKey item
       = Some (N_ (String_of (JNum 1))).
Proof.
  apply (C6_eviction_key_matches_caching_key
           "FruitTable" (fun _ => Resolved {| Item_of := None |})
           (1 # 3)%Q (9 # 10)%Q
           [("arguments", JObj [("bowlId", JNum 1)])]).
  - apply (bowlId_of_argument _ [("bowlId", JNum 1)]); reflexivity.
  - left. vm_compute. reflexivity.
Defined.

(** C10, as stated, fails: a fruit type stored as the empty string is
    present in the item, and the handler reports [null] for it. *)
Lemma C10_empty_fruit_type_is_null :
  ~ (forall TABLE_NAME send event item s,
       send (GetItemCommand TABLE_NAME
               [("bowlId", N_ (String_of_ref (bowlId_of event)))])
       = Resolved {| Item_of := Some item |} ->
       S_of "fruitType" item = Some s ->
       exists quantity,
         snd (FruitFunction_handler TABLE_NAME send event)
         = Resolved (JObj [("type", JStr s); ("quantity", quantity)])).
Proof.
  intros H.
  destruct (H "FruitTable"
              (fun _ => Resolved {| Item_of := Some unnamed_fruit |})
              [("arguments", JObj [("bowlId", JNum 1)])]
              unnamed_fruit "" eq_refl eq_refl) as [quantity Hq].
  vm_compute in Hq. discriminate Hq.
Qed.

(** C10 (amended): FruitFunction never rejects.  It resolves to [null]
    when the read is rejected or finds no item; otherwise it resolves
    to an object whose [type] is the stored fruit type and whose
    [quantity] is the number that [parseInt] reads from the stored
    quantity, [null] if it reads none; that number is the stored
    quantity when this is an integer below 2^53 in magnitude.  Each of
    them is [null] when the item lacks the attribute or holds the empty
    string for it. *)
Theorem C10_reader_resolves_to_null_on_failure TABLE_NAME send event :
  (exists v, snd (FruitFunction_handler TABLE_NAME send event) = Resolved v)
  /\ forall request,
       request = GetItemCommand TABLE_NAME
                   [("bowlId", N_ (String_of_ref (bowlId_of event)))] ->
       fst (FruitFunction_handler TABLE_NAME send event) = request
       /\ (send request = Rejected ->
           snd (FruitFunction_handler TABLE_NAME send event) = Resolved JNull)
       /\ (send request = Resolved {| Item_of := None |} ->
           snd (FruitFunction_handler TABLE_NAME send event) = Resolved JNull)
       /\ (forall item,
             send request = Resolved {| Item_of := Some item |} ->
             exists type quantity,
               snd (FruitFunction_handler TABLE_NAME send event)
               = Resolved (JObj [("type", type); ("quantity", quantity)])
               /\ (S_of "fruitType" item = None
                   \/ S_of "fruitType" item = Some "" -> type = JNull)
               /\ (forall s, S_of "fruitType" item = Some s ->
                              s <> "" -> type = JStr s)
               /\ (N_of "quantity" item = None
                   \/ N_of "quantity" item = Some "" -> quantity = JNull)
               /\ (forall n, N_of "quantity" item = Some n ->
                              n <> "" ->
                              quantity = json_of_number (parseInt n))
               /\ (forall n, N_of "quantity" item = Some n ->
                              parse_integer n = None ->
                              quantity = JNull)
               /\ (forall q, (Z.abs q < 2 ^ 53)%Z ->
                              N_of "quantity" item = Some (decimal q) ->
                              quantity = JNum q)).
Proof.
  split.
  - unfold FruitFunction_handler. cbv zeta. cbn [snd].
    destruct (send _) as [[[item|]]|]; eexists; reflexivity.
  - intros request ->. unfold FruitFunction_handler, FruitFunction_request.
    cbv zeta. cbn [fst snd].
    split; [reflexivity|split; [|split]].
    + intros ->. reflexivity.
    + intros ->. reflexivity.
    + intros item ->. cbn [Item_of].
      eexists. eexists. split; [reflexivity|].
      split; [|split; [|split; [|split; [|split]]]].
      * intros [-> | ->]; reflexivity.
      * intros s -> Hs.
        destruct (String.eqb s "") eqn:E; [|reflexivity].
        apply String.eqb_eq in E. contradiction.
      * intros [-> | ->]; reflexivity.
      * intros n -> Hn.
        destruct (String.eqb n "") eqn:E; [|reflexivity].
        apply String.eqb_eq in E. contradiction.
      * intros n -> Hn. unfold parseInt. rewrite Hn.
        destruct (String.eqb n ""); reflexivity.
      * intros q Hq ->. unfold parseInt.
        rewrite parse_integer_decimal, (nearest_double_exact q Hq).
        destruct (String.eqb (decimal q) "") eqn:E; [|reflexivity].
        apply String.eqb_eq in E.
        pose proof (parse_integer_decimal q) as Hp. rewrite E in Hp.
        discriminate Hp.
Qed.

Lemma C10_reader_resolves_to_null_on_failure_witness :
  snd (FruitFunction_handler "FruitTable" (fun _ => Rejected)
         [("arguments", JObj [("bowlId", JNum 1)])])
  = Resolved JNull
  /\ exists type quantity,
       snd (FruitFunction_handler "FruitTable"
              (fun _ => Resolved {| Item_of := Some unnamed_fruit |})
              [("arguments", JObj [("bowlId", JNum 1)])])
       = Resolved (JObj [("type", type); ("quantity", quantity)])
       /\ type = JNull /\ quantity = JNum 4.
Proof.
  split.
  - apply (proj1 (proj2 (proj2 (C10_reader_resolves_to_null_on_failure
                           "FruitTable" (fun _ => Rejected)
                           [("arguments", JObj [("bowlId", JNum 1)])])
                        _ eq_refl))).
    reflexivity.
  - destruct (proj2 (proj2 (proj2 (proj2
                (C10_reader_resolves_to_null_on_failure
                   "FruitTable"
                   (fun _ => Resolved {| Item_of := Some unnamed_fruit |})
                   [("arguments", JObj [("bowlId", JNum 1)])])
                _ eq_refl))) unnamed_fruit eq_refl)
      as (type & quantity & Hrun & Hnone & _ & _ & _ & _ & Hq).
    exists type, quantity. split; [exact Hrun|]. split.
    + apply Hnone. right. reflexivity.
    + apply (Hq 4%Z); [vm_compute|]; reflexivity.
Defined.

(** * Further properties *)

(** ** The mutation handlers *)

(** *** Rounding of the draws *)

Lemma two_power_pos e : (0 < 2 ^ e)%Q.
Proof. apply Qpower_0_lt. reflexivity. Qed.

Lemma two_not_0 : ~ (2 == 0)%Q.
Proof. discriminate. Qed.

(** The nearest integer is not below zero and half a unit above at most. *)
Lemma round_half_even_bounds y :
  (0 <= y)%Q ->
  (0 <= round_half_even y)%Z
  /\ (inject_Z (round_half_even y) <= y + (1 # 2))%Q.
Proof.
  intros Hy.
  assert (Hf : (0 <= Qfloor y)%Z)
    by (rewrite <- (Qfloor_Z 0); apply Qfloor_resp_le; exact Hy).
  pose proof (Qfloor_le y) as Hle.
  assert (Hup : (inject_Z (Qfloor y + 1) == inject_Z (Qfloor y) + 1)%Q)
    by (rewrite inject_Z_plus; reflexivity).
  assert (Hlow : (inject_Z (Qfloor y) <= y + (1 # 2))%Q).
  { apply Qle_trans with y; [exact Hle|].
    setoid_replace y with (y + 0)%Q at 1 by ring.
    apply Qplus_le_compat; [apply Qle_refl|discriminate]. }
  unfold round_half_even. cbv zeta.
  destruct (Qcompare_spec (y - inject_Z (Qfloor y)) (1 # 2)) as [He|Hl|Hg].
  - destruct (Z.even (Qfloor y)); (split; [lia|]); [exact Hlow|].
    rewrite Hup.
    setoid_replace (y + (1 # 2))%Q
      with (inject_Z (Qfloor y) + ((y - inject_Z (Qfloor y)) + (1 # 2)))%Q
      by ring.
    rewrite He. apply Qplus_le_compat; [apply Qle_refl|discriminate].
  - split; [lia|exact Hlow].
  - split; [lia|]. rewrite Hup.
    setoid_replace (y + (1 # 2))%Q
      with (inject_Z (Qfloor y) + ((y - inject_Z (Qfloor y)) + (1 # 2)))%Q
      by ring.
    apply Qplus_le_compat; [apply Qle_refl|].
    apply Qle_trans with ((1 # 2) + (1 # 2))%Q; [discriminate|].
    apply Qplus_le_compat; [apply Qlt_le_weak; exact Hg|apply Qle_refl].
Qed.

(** A positive rational is not below the power of two of its binade. *)
Lemma binade_le x : (0 < x)%Q -> (2 ^ binade x <= x)%Q.
Proof.
  intros Hx. unfold binade. cbv zeta.
  destruct (Qle_bool (2 ^ (Z.log2 (Qnum x) - Z.log2 (Z.pos (Qden x)))) x)
    eqn:E; [apply Qle_bool_iff; exact E|].
  destruct x as [n d]. cbn [Qnum Qden]. clear E.
  assert (Hn : (0 < n)%Z)
    by (unfold Qlt in Hx; cbn in Hx; lia).
  destruct (Z.log2_spec n Hn) as [Hn1 _].
  destruct (Z.log2_spec (Z.pos d) eq_refl) as [_ Hd2].
  pose proof (Z.log2_nonneg n) as Hln.
  pose proof (Z.log2_nonneg (Z.pos d)) as Hld.
  replace (Z.log2 n - Z.log2 (Z.pos d) - 1)%Z
    with (Z.log2 n - Z.succ (Z.log2 (Z.pos d)))%Z by lia.
  rewrite (Qpower_minus 2 _ _ two_not_0).
  apply Qle_shift_div_r; [apply two_power_pos|].
  change 2%Q with (inject_Z 2).
  rewrite <- !Zpower_Qpower by lia.
  apply Qle_trans with (inject_Z n); [rewrite <- Zle_Qle; exact Hn1|].
  apply Qle_trans with ((n # d) * inject_Z (Z.pos d))%Q.
  - rewrite (Qmake_Qdiv n d).
    setoid_replace (inject_Z n / inject_Z (Z.pos d) * inject_Z (Z.pos d))%Q
      with (inject_Z n).
    + apply Qle_refl.
    + field. discriminate.
  - rewrite !(Qmult_comm (n # d)).
    apply Qmult_le_compat_r.
    + rewrite <- Zle_Qle. lia.
    + apply Qlt_le_weak. exact Hx.
Qed.

Lemma half_power e : ((1 # 2) * 2 ^ e == 2 ^ (e - 1))%Q.
Proof.
  rewrite (Qpower_minus 2 e 1 two_not_0).
  change (2 ^ 1)%Q with 2%Q. field.
Qed.

(** The double nearest to a rational from 0 to [n * (1 - 2^-53)] is
    finite, not negative and below [n]. *)
Lemma nearest_double_Q_below (x : Q) (n : Z) :
  (1 <= n)%Z -> (inject_Z n <= 2 ^ 1024)%Q ->
  (0 <= x)%Q -> (x <= inject_Z n * (1 - epsilon_half))%Q ->
  exists v, nearest_double_Q x = Finite v /\ (0 <= v)%Q /\ (v < inject_Z n)%Q.
Proof.
  intros Hn Hmax H0 H1.
  assert (HnQ : (1 <= inject_Z n)%Q)
    by (change 1%Q with (inject_Z 1); rewrite <- Zle_Qle; exact Hn).
  assert (Hn0 : (0 < inject_Z n)%Q)
    by (apply Qlt_le_trans with 1%Q; [reflexivity|exact HnQ]).
  unfold nearest_double_Q. cbv zeta.
  pose proof (Qabs_pos x H0) as Ha.
  set (a := Qabs x) in *.
  destruct (Qeq_bool a 0) eqn:E0.
  { exists 0%Q. split; [reflexivity|]. split; [apply Qle_refl|exact Hn0]. }
  apply Qeq_bool_neq in E0.
  assert (Hpos : (0 < a)%Q).
  { destruct (Qlt_le_dec 0 a) as [H|H]; [exact H|].
    exfalso. apply E0. apply Qle_antisym; [exact H|].
    rewrite Ha. exact H0. }
  pose proof (binade_le a Hpos) as He.
  set (e := binade a) in *.
  set (q := (Z.max e (-1022) - 52)%Z).
  assert (Hy : (0 <= a / 2 ^ q)%Q).
  { apply Qle_shift_div_l; [apply two_power_pos|].
    rewrite Qmult_0_l. apply Qlt_le_weak. exact Hpos. }
  destruct (round_half_even_bounds _ Hy) as [HR0 HR1].
  set (R := round_half_even (a / 2 ^ q)) in *.
  set (v := (inject_Z R * 2 ^ q)%Q).
  assert (Hv0 : (0 <= v)%Q).
  { unfold v. apply Qmult_le_0_compat.
    - change 0%Q with (inject_Z 0). rewrite <- Zle_Qle. exact HR0.
    - apply Qlt_le_weak, two_power_pos. }
  assert (Hv1 : (v <= a + 2 ^ (q - 1))%Q).
  { unfold v.
    apply Qle_trans with ((a / 2 ^ q + (1 # 2)) * 2 ^ q)%Q.
    - apply Qmult_le_compat_r; [exact HR1|].
      apply Qlt_le_weak, two_power_pos.
    - rewrite <- half_power.
      setoid_replace ((a / 2 ^ q + (1 # 2)) * 2 ^ q)%Q
        with (a + (1 # 2) * 2 ^ q)%Q; [apply Qle_refl|].
      field. apply Qpower_not_0. exact two_not_0. }
  assert (Hvn : (v < inject_Z n)%Q).
  { apply Qle_lt_trans with (a + 2 ^ (q - 1))%Q; [exact Hv1|].
    rewrite Ha.
    destruct (Z.max_spec e (-1022)) as [[Hlt Hm]|[Hge Hm]].
    - (* below the normal range *)
      assert (Hq : (q - 1 = -1075)%Z) by (unfold q; lia).
      rewrite Hq.
      apply Qle_lt_trans
        with (inject_Z n * (1 - epsilon_half) + 2 ^ (-1075))%Q.
      + apply Qplus_le_compat; [exact H1|apply Qle_refl].
      + apply Qlt_le_trans
          with (inject_Z n * (1 - epsilon_half) + 1 * epsilon_half)%Q.
        * apply Qplus_lt_r. reflexivity.
        * apply Qle_trans
            with (inject_Z n * (1 - epsilon_half)
                  + inject_Z n * epsilon_half)%Q.
          -- apply Qplus_le_compat; [apply Qle_refl|].
             apply Qmult_le_compat_r; [exact HnQ|discriminate].
          -- setoid_replace (inject_Z n * (1 - epsilon_half)
                             + inject_Z n * epsilon_half)%Q
               with (inject_Z n) by ring.
             apply Qle_refl.
    - (* in the normal range *)
      assert (Hq : (q - 1 = e + (-53))%Z) by (unfold q; lia).
      rewrite Hq, (Qpower_plus 2 e (-53) two_not_0).
      fold epsilon_half.
      apply Qle_lt_trans with (x + x * epsilon_half)%Q.
      + apply Qplus_le_compat; [apply Qle_refl|].
        apply Qmult_le_compat_r; [|discriminate].
        rewrite <- Ha. exact He.
      + setoid_replace (x + x * epsilon_half)%Q
          with (x * (1 + epsilon_half))%Q by ring.
        apply Qle_lt_trans
          with (inject_Z n * (1 - epsilon_half) * (1 + epsilon_half))%Q.
        * apply Qmult_le_compat_r; [exact H1|discriminate].
        * setoid_replace
            (inject_Z n * (1 - epsilon_half) * (1 + epsilon_half))%Q
            with (inject_Z n * ((1 - epsilon_half) * (1 + epsilon_half)))%Q
            by ring.
          setoid_replace (inject_Z n) with (inject_Z n * 1)%Q at 2 by ring.
          apply Qmult_lt_l; [exact Hn0|]. reflexivity. }
  destruct (Qle_bool (2 ^ 1024) v) eqn:Ebig.
  { exfalso. apply Qle_bool_iff in Ebig.
    apply (Qlt_irrefl v).
    apply Qlt_le_trans with (inject_Z n); [exact Hvn|].
    apply Qle_trans with (2 ^ 1024)%Q; assumption. }
  exists v. split; [|split; assumption].
  assert (Hx : Qle_bool 0 x = true) by (apply Qle_bool_iff; exact H0).
  rewrite Hx. reflexivity.
Qed.

(** A draw times a length, rounded and floored, is an index below the
    length. *)
Lemma drawn_index (r : Q) (n : Z) :
  (1 <= n)%Z -> (inject_Z n <= 2 ^ 1024)%Q ->
  (0 <= r)%Q -> (r <= 1 - epsilon_half)%Q ->
  exists i, Math_floor (times r n) = Num i /\ (0 <= i < n)%Z.
Proof.
  intros Hn Hmax H0 H1.
  assert (Hn0 : (0 <= inject_Z n)%Q)
    by (change 0%Q with (inject_Z 0); rewrite <- Zle_Qle; lia).
  destruct (nearest_double_Q_below (r * inject_Z n)%Q n Hn Hmax)
    as (v & Hv & Hv0 & Hv1).
  - apply Qmult_le_0_compat; assumption.
  - rewrite (Qmult_comm (inject_Z n)).
    apply Qmult_le_compat_r; assumption.
  - exists (Qfloor v). unfold times. rewrite Hv. split; [reflexivity|]. split.
    + rewrite <- (Qfloor_Z 0). apply Qfloor_resp_le. exact Hv0.
    + rewrite Zlt_Qlt.
      apply Qle_lt_trans with v; [apply Qfloor_le|exact Hv1].
Qed.

(** The fruit a draw picks. *)
Lemma drawn_fruit (r : Q) :
  (0 <= r)%Q -> (r <= 1 - epsilon_half)%Q ->
  exists f, pick_fruitType r = Some f /\ In f fruits /\ f <> "".
Proof.
  intros H0 H1. unfold pick_fruitType.
  destruct (drawn_index r (Z.of_nat (length fruits))) as (i & -> & Hlo & Hhi);
    [vm_compute; discriminate|vm_compute; discriminate|assumption..|].
  unfold element.
  destruct (Z.ltb_spec i 0) as [Hneg|_]; [lia|].
  destruct (nth_error fruits (Z.to_nat i)) as [f|] eqn:E.
  - exists f. split; [reflexivity|]. split.
    + apply nth_error_In in E. exact E.
    + apply nth_error_In in E. intros ->.
      revert E. vm_compute. intuition discriminate.
  - apply nth_error_None in E. lia.
Qed.

(** The quantity a draw picks. *)
Lemma drawn_quantity (r : Q) :
  (0 <= r)%Q -> (r <= 1 - epsilon_half)%Q ->
  exists q, pick_quantity r = Num q /\ (1 <= q <= 10)%Z.
Proof.
  intros H0 H1. unfold pick_quantity.
  destruct (drawn_index r 10) as (i & -> & Hlo & Hhi);
    [vm_compute; discriminate|vm_compute; discriminate|assumption..|].
  exists (i + 1)%Z. split; [|lia].
  unfold plus_one. apply nearest_double_exact. lia.
Qed.

(** The double nearest to seven tenths picks the fruit at index 35 and
    the quantity 8: its products by 50 and by 10 round to 35 and 7. *)
Example draw_of_seven_tenths :
  exists r,
    nearest_double_Q (7 # 10) = Finite r
    /\ (r == 3152519739159347 # 4503599627370496)%Q
    /\ pick_fruitType r = Some "gooseberry"
    /\ pick_quantity r = Num 8.
Proof.
  eexists. split; [vm_compute; reflexivity|].
  repeat split; vm_compute; reflexivity.
Qed.

Lemma String_of_numeric_Num q :
  (Z.abs q < 2 ^ 53)%Z -> String_of_numeric (Num q) = String_of_number q.
Proof.
  intros H. unfold String_of_number. rewrite (nearest_double_exact q H).
  reflexivity.
Qed.

Lemma pickFruit_evicting_plain TABLE_NAME send random1 random2 event :
  pickFruit_evicting TABLE_NAME send random1 random2 event
  = (fst (PickFruitFunction_handler TABLE_NAME send random1 random2 event),
     match snd (PickFruitFunction_handler TABLE_NAME send random1 random2 event)
     with
     | Resolved payload =>
         Resolved ((sentinel, emitted (bowlId_of event)) :: payload)
     | Rejected => Rejected
     end).
Proof.
  unfold pickFruit_evicting, PickFruitFunction_handler. cbv zeta.
  cbn [fst snd]. destruct (send _); reflexivity.
Qed.

(** The payload of PickFruitFunction has two fields at most. *)
Lemma plain_payload TABLE_NAME send random1 random2 event put payload :
  PickFruitFunction_handler TABLE_NAME send random1 random2 event
  = (put, Resolved payload) ->
  exists fruitType quantity,
    payload = literal [("type", option_map JStr fruitType);
                       ("quantity", Some quantity)].
Proof.
  unfold PickFruitFunction_handler. cbv zeta.
  destruct (send _); intros H; inversion H.
  eexists. eexists. reflexivity.
Qed.

Lemma plain_payload_clean fruitType quantity :
  let payload := literal [("type", option_map JStr fruitType);
                          ("quantity", Some quantity)] in
  get_field sentinel payload = None /\ get_field "error" payload = None.
Proof. destruct fruitType; split; reflexivity. Qed.

(** X1: with both draws of [Math.random()] doubles from 0 to the
    largest double below 1, and each product rounded to the nearest
    double before [Math.floor], a mutation handler that resolves
    reports a fruit of the list and a quantity from 1 to 10, and these
    are the values it wrote to the table. *)
Theorem picked_fruit_and_quantity
  TABLE_NAME send random1 random2 event put result :
  (0 <= random1)%Q -> (random1 <= 1 - epsilon_half)%Q ->
  (0 <= random2)%Q -> (random2 <= 1 - epsilon_half)%Q ->
  PickFruitFunction_handler TABLE_NAME send random1 random2 event
  = (put, Resolved result)
  \/ PickFruitVtlFunction_handler TABLE_NAME send random1 random2 event
     = (put, Resolved result)
  \/ PickFruitJSFunction_handler TABLE_NAME send random1 random2 event
     = (put, Resolved result) ->
  exists f q item,
    In f fruits /\ (1 <= q <= 10)%Z
    /\ pick_fruitType random1 = Some f
    /\ pick_quantity random2 = Num q
    /\ get_field "type" result = Some (JStr f)
    /\ get_field "quantity" result = Some (JNum q)
    /\ put = PutItemCommand TABLE_NAME item
    /\ S_of "fruitType" item = Some f
    /\ N_of "quantity" item = Some (String_of_number q)
    /\ String_of_number q = decimal q.
Proof.
  intros H0 H1 H2 H3 H.
  destruct (drawn_fruit random1 H0 H1) as (f & Hf & Hin & _).
  destruct (drawn_quantity random2 H2 H3) as (q & Hq & Hlo & Hhi).
  assert (Hsmall : (Z.abs q < 2 ^ 53)%Z) by lia.
  assert (Hplain :
    exists tail,
      PickFruitFunction_handler TABLE_NAME send random1 random2 event
      = (put, Resolved tail)
      /\ (result = tail \/ exists s, result = (sentinel, s) :: tail)).
  { destruct H as [H|H]; [exists result; auto|].
    assert (He : pickFruit_evicting TABLE_NAME send random1 random2 event
                 = (put, Resolved result)) by (destruct H; assumption).
    rewrite pickFruit_evicting_plain in He.
    destruct (PickFruitFunction_handler TABLE_NAME send random1 random2 event)
      as [put' [tail|]]; cbn [fst snd] in He; inversion He; subst.
    exists tail. split; [reflexivity|]. right. eexists. reflexivity. }
  destruct Hplain as (tail & Hrun & Hres).
  unfold PickFruitFunction_handler in Hrun. cbv zeta in Hrun.
  rewrite Hf, Hq, (String_of_numeric_Num q Hsmall) in Hrun.
  apply pair_equal_spec in Hrun. destruct Hrun as [Hput Hout].
  rewrite Hput in Hout.
  destruct (send put); [|discriminate].
  assert (Htail : literal [("type", option_map JStr (Some f));
                           ("quantity", Some (json_of_number (Num q)))]
                  = tail) by congruence.
  cbn [literal option_map json_of_number] in Htail. subst put tail.
  exists f, q. eexists.
  split; [exact Hin|]. split; [lia|].
  split; [exact Hf|]. split; [exact Hq|].
  split; [destruct Hres as [->|[s ->]]; reflexivity|].
  split; [destruct Hres as [->|[s ->]]; reflexivity|].
  split; [reflexivity|]. split; [reflexivity|]. split; [reflexivity|].
  apply String_of_number_decimal. exact Hsmall.
Qed.

Lemma picked_fruit_and_quantity_witness :
  exists f q item,
    In f fruits /\ (1 <= q <= 10)%Z
    /\ pick_fruitType (3152519739159347 # 4503599627370496) = Some f
    /\ pick_quantity (3152519739159347 # 4503599627370496) = Num q
    /\ get_field "type" [("type", JStr "gooseberry"); ("quantity", JNum 8)]
       = Some (JStr f)
    /\ get_field "quantity" [("type", JStr "gooseberry"); ("quantity", JNum 8)]
       = Some (JNum q)
    /\ PutItemCommand "FruitTable"
         [("bowlId", N_ "1"); ("fruitType", S_ (Some "gooseberry"));
          ("quantity", N_ "8")]
       = PutItemCommand "FruitTable" item
    /\ S_of "fruitType" item = Some f
    /\ N_of "quantity" item = Some (String_of_number q)
    /\ String_of_number q = decimal q.
Proof.
  apply (picked_fruit_and_quantity
           "FruitTable" (fun _ => Resolved {| Item_of := None |})
           (3152519739159347 # 4503599627370496)%Q
           (3152519739159347 # 4503599627370496)%Q
           [("arguments", JObj [("bowlId", JNum 1)])]).
  - discriminate.
  - vm_compute. discriminate.
  - discriminate.
  - vm_compute. discriminate.
  - left. vm_compute. reflexivity.
Defined.

(** X2: on the same event and draws the three mutation handlers send
    the same write, and PickFruitFunction settles as the evicting
    handlers do with the sentinel field taken out of the result. *)
Theorem plain_handler_is_evicting_without_sentinel
  TABLE_NAME send random1 random2 event :
  let plain := PickFruitFunction_handler TABLE_NAME send random1 random2 event in
  let without_sentinel (h : Command * settled object) :=
    (fst h,
     match snd h with
     | Resolved result => Resolved (remove_field sentinel result)
     | Rejected => Rejected
     end) in
  plain = without_sentinel
            (PickFruitVtlFunction_handler TABLE_NAME send random1 random2 event)
  /\ plain = without_sentinel
               (PickFruitJSFunction_handler TABLE_NAME send random1 random2 event).
Proof.
  cbv zeta.
  assert (H : PickFruitFunction_handler TABLE_NAME send random1 random2 event
              = (fst (pickFruit_evicting TABLE_NAME send random1 random2 event),
                 match snd (pickFruit_evicting TABLE_NAME send random1 random2
                              event) with
                 | Resolved result => Resolved (remove_field sentinel result)
                 | Rejected => Rejected
                 end)).
  { rewrite pickFruit_evicting_plain. cbn [fst snd].
    destruct (PickFruitFunction_handler TABLE_NAME send random1 random2 event)
      as [put [payload|]] eqn:E; cbn [fst snd]; [|reflexivity].
    destruct (plain_payload _ _ _ _ _ _ _ E) as (fruitType & quantity & ->).
    destruct (plain_payload_clean fruitType quantity) as [Hs _].
    cbv zeta in Hs.
    change (remove_field sentinel ((sentinel, emitted (bowlId_of event)) :: ?p))
      with (remove_field sentinel p).
    rewrite (remove_field_absent _ _ Hs). reflexivity. }
  split; exact H.
Qed.

(** The result of an evicting handler, as the templates see it. *)
Lemma evicting_result TABLE_NAME send random1 random2 event put result :
  pickFruit_evicting TABLE_NAME send random1 random2 event
  = (put, Resolved result) ->
  exists payload,
    PickFruitFunction_handler TABLE_NAME send random1 random2 event
    = (put, Resolved payload)
    /\ result = (sentinel, emitted (bowlId_of event)) :: payload
    /\ get_field sentinel payload = None
    /\ get_field "error" payload = None.
Proof.
  rewrite pickFruit_evicting_plain. intros H.
  destruct (PickFruitFunction_handler TABLE_NAME send random1 random2 event)
    as [put' [payload|]] eqn:E; cbn [fst snd] in H;
    apply pair_equal_spec in H; destruct H as [-> H]; [|discriminate].
  exists payload. split; [reflexivity|]. split; [congruence|].
  destruct (plain_payload _ _ _ _ _ _ _ E) as (fruitType & quantity & ->).
  apply plain_payload_clean.
Qed.

Lemma forward_evicting_result bowlId payload :
  get_field sentinel payload = None ->
  get_field "error" payload = None ->
  let result := (sentinel, emitted bowlId) :: payload in
  let call := Evict (Some (JStr "Query")) (Some (JStr "fruit"))
                (Some (JObj (literal [("context.arguments.bowlId", bowlId)]))) in
  run vtl_response result = (Returned payload, [call])
  /\ run js_response result = (Returned payload, [call]).
Proof.
  intros Hs He result call.
  assert (Hu : error_unset result = true)
    by (unfold error_unset, result; cbn [get_field String.eqb Ascii.eqb
          Bool.eqb]; rewrite He; reflexivity).
  assert (Hb : get_field sentinel result
               = Some (JArr (map tuple
                   [(JStr "Query", JStr "fruit",
                     JObj (literal [("context.arguments.bowlId", bowlId)]))])))
    by reflexivity.
  assert (Hr : remove_field sentinel result = payload).
  { unfold result.
    change (remove_field sentinel ((sentinel, emitted bowlId) :: payload))
      with (remove_field sentinel payload).
    apply remove_field_absent. exact Hs. }
  split.
  - rewrite run_vtl_response. cbv zeta.
    rewrite (error_unset_vtl _ Hu), (vtl_calls_batch _ _ Hb), Hr. reflexivity.
  - rewrite run_eq, (js_response_batch result [] _ (error_unset_js _ Hu) Hb), Hr.
    reflexivity.
Qed.

(** X3: the result of a resolved PickFruitVtlFunction goes through the
    VTL template, and the result of a resolved PickFruitJSFunction
    through the JS template, with exactly one eviction call, for
    [Query], [fruit] and the handler's [bowlId] under the key
    [context.arguments.bowlId]; what the template returns is the result
    PickFruitFunction gives for the same event and draws. *)
Theorem mutation_evicts_once TABLE_NAME send random1 random2 event put result :
  let call := Evict (Some (JStr "Query")) (Some (JStr "fruit"))
                (Some (JObj (literal [("context.arguments.bowlId",
                                       bowlId_of event)]))) in
  let plain := PickFruitFunction_handler TABLE_NAME send random1 random2 event in
  (PickFruitVtlFunction_handler TABLE_NAME send random1 random2 event
   = (put, Resolved result) ->
   exists payload,
     plain = (put, Resolved payload)
     /\ run vtl_response result = (Returned payload, [call]))
  /\ (PickFruitJSFunction_handler TABLE_NAME send random1 random2 event
      = (put, Resolved result) ->
      exists payload,
        plain = (put, Resolved payload)
        /\ run js_response result = (Returned payload, [call])).
Proof.
  cbv zeta.
  split; intros H;
    destruct (evicting_result _ _ _ _ _ _ _ H) as (payload & Hp & -> & Hs & He);
    exists payload; (split; [exact Hp|]);
    apply (forward_evicting_result (bowlId_of event) payload Hs He).
Qed.

Lemma mutation_evicts_once_witness :
  run vtl_response
    [(sentinel, JArr [JArr [JStr "Query"; JStr "fruit";
                            JObj [("context.arguments.bowlId", JNum 1)]]]);
     ("type", JStr "pear"); ("quantity", JNum 10)]
  = (Returned [("type", JStr "pear"); ("quantity", JNum 10)],
     [Evict (Some (JStr "Query")) (Some (JStr "fruit"))
        (Some (JObj [("context.arguments.bowlId", JNum 1)]))]).
Proof.
  destruct (proj1 (mutation_evicts_once
              "FruitTable" (fun _ => Resolved {| Item_of := None |})
              (1 # 3)%Q (9 # 10)%Q
              [("arguments", JObj [("bowlId", JNum 1)])]
              (PutItemCommand "FruitTable"
                 [("bowlId", N_ "1"); ("fruitType", S_ (Some "pear"));
                  ("quantity", N_ "10")])
              [(sentinel, JArr [JArr [JStr "Query"; JStr "fruit";
                                      JObj [("context.arguments.bowlId",
                                             JNum 1)]]]);
               ("type", JStr "pear"); ("quantity", JNum 10)])
            eq_refl) as (payload & Hp & Hrun).
  injection Hp as <-. exact Hrun.
Defined.

(** X4: the result of a resolved PickFruitFunction carries no sentinel:
    either template, run on it, makes no eviction call and returns it
    unchanged. *)
Theorem plain_mutation_never_evicts
  TABLE_NAME send random1 random2 event put result :
  PickFruitFunction_handler TABLE_NAME send random1 random2 event
  = (put, Resolved result) ->
  get_field sentinel result = None
  /\ run vtl_response result = (Returned result, [])
  /\ run js_response result = (Returned result, []).
Proof.
  intros H.
  destruct (plain_payload _ _ _ _ _ _ _ H) as (fruitType & quantity & ->).
  destruct (plain_payload_clean fruitType quantity) as [Hs He].
  cbv zeta in Hs, He.
  split; [exact Hs|]. split.
  - rewrite run_vtl_response. cbv zeta.
    unfold VTL.prop at 1. rewrite He. cbn [VTL.isNull].
    rewrite (vtl_calls_absent _ Hs), (remove_field_absent _ _ Hs). reflexivity.
  - rewrite run_eq, js_response_falsy; [reflexivity|..].
    + rewrite He. reflexivity.
    + rewrite Hs. reflexivity.
Qed.

Lemma plain_mutation_never_evicts_witness :
  let result := [("type", JStr "pear"); ("quantity", JNum 10)] in
  get_field sentinel result = None
  /\ run vtl_response result = (Returned result, [])
  /\ run js_response result = (Returned result, []).
Proof.
  apply (plain_mutation_never_evicts
           "FruitTable" (fun _ => Resolved {| Item_of := None |})
           (1 # 3)%Q (9 # 10)%Q
           [("arguments", JObj [("bowlId", JNum 1)])]
           (PutItemCommand "FruitTable"
              [("bowlId", N_ "1"); ("fruitType", S_ (Some "pear"));
               ("quantity", N_ "10")])).
  reflexivity.
Defined.

(** ** Writing, then reading *)

Lemma decimal_not_empty q : decimal q <> "".
Proof.
  intros E. pose proof (parse_integer_decimal q) as H.
  rewrite E in H. discriminate H.
Qed.

(** X5: when the read of FruitFunction finds the item a mutation
    handler has just written for the same event (both draws of
    [Math.random()] doubles from 0 to the largest double below 1),
    FruitFunction resolves to the object the mutation returned,
    sentinel apart: the same type and the same quantity. *)
Theorem reader_returns_what_was_written
  TABLE_NAME send_write send_read random1 random2 event item result :
  (0 <= random1)%Q -> (random1 <= 1 - epsilon_half)%Q ->
  (0 <= random2)%Q -> (random2 <= 1 - epsilon_half)%Q ->
  PickFruitFunction_handler TABLE_NAME send_write random1 random2 event
  = (PutItemCommand TABLE_NAME item, Resolved result)
  \/ PickFruitVtlFunction_handler TABLE_NAME send_write random1 random2 event
     = (PutItemCommand TABLE_NAME item, Resolved result)
  \/ PickFruitJSFunction_handler TABLE_NAME send_write random1 random2 event
     = (PutItemCommand TABLE_NAME item, Resolved result) ->
  send_read (fst (FruitFunction_handler TABLE_NAME send_read event))
  = Resolved {| Item_of := Some item |} ->
  snd (FruitFunction_handler TABLE_NAME send_read event)
  = Resolved (JObj (remove_field sentinel result)).
Proof.
  intros H0 H1 H2 H3 H Hread.
  assert (Hplain :
    PickFruitFunction_handler TABLE_NAME send_write random1 random2 event
    = (PutItemCommand TABLE_NAME item,
       Resolved (remove_field sentinel result))).
  { destruct H as [H|H].
    - destruct (plain_payload _ _ _ _ _ _ _ H) as (fruitType & quantity & E).
      destruct (plain_payload_clean fruitType quantity) as [Hs _].
      cbv zeta in Hs. rewrite <- E in Hs.
      rewrite (remove_field_absent _ _ Hs). exact H.
    - assert (He : pickFruit_evicting TABLE_NAME send_write random1 random2
                     event
                   = (PutItemCommand TABLE_NAME item, Resolved result))
        by (destruct H; assumption).
      destruct (evicting_result _ _ _ _ _ _ _ He)
        as (payload & Hp & -> & Hs & _).
      change (remove_field sentinel
                ((sentinel, emitted (bowlId_of event)) :: payload))
        with (remove_field sentinel payload).
      rewrite (remove_field_absent _ _ Hs). exact Hp. }
  clear H. destruct (drawn_fruit random1 H0 H1) as (f & Hf & _ & Hne).
  destruct (drawn_quantity random2 H2 H3) as (q & Hq & Hlo & Hhi).
  assert (Hsmall : (Z.abs q < 2 ^ 53)%Z) by lia.
  unfold PickFruitFunction_handler in Hplain. cbv zeta in Hplain.
  rewrite Hf, Hq, (String_of_numeric_Num q Hsmall),
    (String_of_number_decimal q Hsmall) in Hplain.
  apply pair_equal_spec in Hplain. destruct Hplain as [Hput Hout].
  rewrite Hput in Hout.
  destruct (send_write (PutItemCommand TABLE_NAME item)); [|discriminate].
  cbn [literal option_map json_of_number] in Hout.
  assert (Hres : [("type", JStr f); ("quantity", JNum q)]
                 = remove_field sentinel result) by congruence.
  assert (Hitem : [("bowlId", N_ (String_of_ref (bowlId_of event)));
                   ("fruitType", S_ (Some f));
                   ("quantity", N_ (decimal q))]
                  = item) by congruence.
  rewrite <- Hres. clear Hput Hout Hres.
  unfold FruitFunction_handler in *. cbv zeta in *. cbn [fst snd] in *.
  rewrite Hread. cbn [Item_of].
  subst item.
  change (S_of "fruitType" _) with (Some f).
  change (N_of "quantity" _) with (Some (decimal q)).
  cbv iota beta.
  unfold parseInt.
  rewrite parse_integer_decimal, (nearest_double_exact q Hsmall).
  destruct (String.eqb f "") eqn:Ef;
    [apply String.eqb_eq in Ef; contradiction|].
  destruct (String.eqb (decimal q) "") eqn:Eq;
    [apply String.eqb_eq in Eq; apply decimal_not_empty in Eq;
     contradiction|].
  reflexivity.
Qed.

Lemma reader_returns_what_was_written_witness :
  snd (FruitFunction_handler "FruitTable"
         (fun _ => Resolved
            {| Item_of := Some [("bowlId", N_ "1");
                                ("fruitType", S_ (Some "gooseberry"));
                                ("quantity", N_ "8")] |})
         [("arguments", JObj [("bowlId", JNum 1)])])
  = Resolved (JObj [("type", JStr "gooseberry"); ("quantity", JNum 8)]).
Proof.
  apply (reader_returns_what_was_written
           "FruitTable" (fun _ => Resolved {| Item_of := None |})
           (fun _ => Resolved
              {| Item_of := Some [("bowlId", N_ "1");
                                  ("fruitType", S_ (Some "gooseberry"));
                                  ("quantity", N_ "8")] |})
           (3152519739159347 # 4503599627370496)%Q
           (3152519739159347 # 4503599627370496)%Q
           [("arguments", JObj [("bowlId", JNum 1)])]
           [("bowlId", N_ "1"); ("fruitType", S_ (Some "gooseberry"));
            ("quantity", N_ "8")]
           [(sentinel, JArr [JArr [JStr "Query"; JStr "fruit";
                                   JObj [("context.arguments.bowlId",
                                          JNum 1)]]]);
            ("type", JStr "gooseberry"); ("quantity", JNum 8)]).
  - discriminate.
  - vm_compute. discriminate.
  - discriminate.
  - vm_compute. discriminate.
  - right. left. vm_compute. reflexivity.
  - reflexivity.
Defined.

(** X6: the one command FruitFunction sends is a read and never a
    write; it addresses the table and the partition key value that
    every mutation handler writes for the same event; what
    FruitFunction resolves to is fixed by how that one read settles,
    and changes with it: [null] when the read is rejected or finds
    nothing, an object when it finds an item. *)
Theorem reader_reads_the_written_key TABLE_NAME event :
  (exists key,
     (forall send,
        fst (FruitFunction_handler TABLE_NAME send event)
        = GetItemCommand TABLE_NAME [(FruitTable_partitionKey, key)]
        /\ is_write (fst (FruitFunction_handler TABLE_NAME send event))
           = false)
     /\ forall send random1 random2 handler,
          In handler [PickFruitFunction_handler;
                      PickFruitVtlFunction_handler;
                      PickFruitJSFunction_handler] ->
          exists item,
            fst (handler TABLE_NAME send random1 random2 event)
            = PutItemCommand TABLE_NAME item
            /\ attribute FruitTable_partitionKey item = Some key)
  /\ (forall send1 send2,
        send1 (fst (FruitFunction_handler TABLE_NAME send1 event))
        = send2 (fst (FruitFunction_handler TABLE_NAME send2 event)) ->
        snd (FruitFunction_handler TABLE_NAME send1 event)
        = snd (FruitFunction_handler TABLE_NAME send2 event))
  /\ (forall send,
        send (fst (FruitFunction_handler TABLE_NAME send event)) = Rejected
        \/ send (fst (FruitFunction_handler TABLE_NAME send event))
           = Resolved {| Item_of := None |} ->
        snd (FruitFunction_handler TABLE_NAME send event) = Resolved JNull)
  /\ (forall send item,
        send (fst (FruitFunction_handler TABLE_NAME send event))
        = Resolved {| Item_of := Some item |} ->
        exists type quantity,
          snd (FruitFunction_handler TABLE_NAME send event)
          = Resolved (JObj [("type", type); ("quantity", quantity)])).
Proof.
  split; [|split; [|split]].
  - eexists. split.
    + intros send. split; reflexivity.
    + intros send random1 random2 handler [<-|[<-|[<-|[]]]];
        eexists; (split; reflexivity).
  - intros send1 send2 H. unfold FruitFunction_handler in *.
    cbv zeta in *. cbn [fst snd] in *. rewrite H. reflexivity.
  - intros send H. unfold FruitFunction_handler in *.
    cbv zeta in *. cbn [fst snd] in *. destruct H as [-> | ->]; reflexivity.
  - intros send item H. unfold FruitFunction_handler in *.
    cbv zeta in *. cbn [fst snd] in *. rewrite H. cbn [Item_of].
    eexists. eexists. reflexivity.
Qed.

Lemma reader_reads_the_written_key_witness :
  snd (FruitFunction_handler "FruitTable" (fun _ => Rejected)
         [("arguments", JObj [("bowlId", JNum 1)])])
  = snd (FruitFunction_handler "FruitTable"
           (fun c => if is_write c then Resolved {| Item_of := None |}
                     else Rejected)
           [("arguments", JObj [("bowlId", JNum 1)])])
  /\ exists type quantity,
       snd (FruitFunction_handler "FruitTable"
              (fun c => if is_write c then Rejected
                        else Resolved {| Item_of := Some unnamed_fruit |})
              [("arguments", JObj [("bowlId", JNum 1)])])
       = Resolved (JObj [("type", type); ("quantity", quantity)]).
Proof.
  split.
  - apply (proj1 (proj2 (reader_reads_the_written_key
                           "FruitTable"
                           [("arguments", JObj [("bowlId", JNum 1)])]))).
    reflexivity.
  - apply (proj2 (proj2 (proj2 (reader_reads_the_written_key
                                  "FruitTable"
                                  [("arguments", JObj [("bowlId", JNum 1)])])))
             _ unnamed_fruit).
    reflexivity.
Defined.

(** X7: an argument [bowlId] that is falsy (such as [0]), on an event
    without a [bowlId] of its own, leaves the handlers without a
    [bowlId]: the read and the write address the key [undefined], and
    the instruction an evicting handler emits has no key argument. *)
Theorem falsy_bowlId_is_lost
  TABLE_NAME send random1 random2 event arguments :
  get_field "arguments" event = Some (JObj arguments) ->
  JS.truthy_ref (get_field "bowlId" arguments) = false ->
  get_field "bowlId" event = None ->
  FruitFunction_request TABLE_NAME event
  = GetItemCommand TABLE_NAME [(FruitTable_partitionKey, N_ "undefined")]
  /\ (exists item,
        fst (pickFruit_evicting TABLE_NAME send random1 random2 event)
        = PutItemCommand TABLE_NAME item
        /\ attribute FruitTable_partitionKey item = Some (N_ "undefined"))
  /\ forall result,
       snd (pickFruit_evicting TABLE_NAME send random1 random2 event)
       = Resolved result ->
       get_field sentinel result
       = Some (encode_batch [{| operationType := "Query";
                                fieldName := "fruit";
                                keyArguments := [] |}]).
Proof.
  intros Ha Hf Hb.
  assert (Hid : bowlId_of event = None).
  { unfold bowlId_of. rewrite Ha, Hb. unfold JS.or, JS.prop.
    rewrite Hf. reflexivity. }
  split; [|split].
  - unfold FruitFunction_request. rewrite Hid. reflexivity.
  - unfold pickFruit_evicting. rewrite Hid. cbv zeta. cbn [fst].
    eexists. split; reflexivity.
  - intros result. unfold pickFruit_evicting. rewrite Hid. cbv zeta.
    cbn [snd]. destruct (send _); [|discriminate].
    intros H. injection H as <-. reflexivity.
Qed.

Lemma falsy_bowlId_is_lost_witness :
  FruitFunction_request "FruitTable" [("arguments", JObj [("bowlId", JNum 0)])]
  = GetItemCommand "FruitTable" [(FruitTable_partitionKey, N_ "undefined")].
Proof.
  apply (proj1 (falsy_bowlId_is_lost
                  "FruitTable" (fun _ => Rejected) 0%Q 0%Q
                  [("arguments", JObj [("bowlId", JNum 0)])]
                  [("bowlId", JNum 0)] eq_refl eq_refl eq_refl)).
Defined.

(** X8: the request of PickFruitJSResolver invokes the Lambda with an
    event that holds the field name and, under [arguments], the
    resolver's arguments; a truthy argument [bowlId] is the [bowlId] of
    the handler, so the eviction call the JS template then makes names
    the value of [ctx.args.bowlId]. *)
Theorem js_request_passes_bowlId ctx b :
  get_field "bowlId" (args ctx) = Some b ->
  JS.truthy b = true ->
  exists event,
    invoked_event (PickFruitJSResolver_request ctx) = Some event
    /\ get_field "field" event = Some (JStr (info_fieldName ctx))
    /\ get_field "arguments" event = Some (JObj (args ctx))
    /\ bowlId_of event = Some b
    /\ forall TABLE_NAME send random1 random2 put result,
         PickFruitJSFunction_handler TABLE_NAME send random1 random2 event
         = (put, Resolved result) ->
         snd (run js_response result)
         = [Evict (Some (JStr "Query")) (Some (JStr "fruit"))
              (Some (JObj [("context.arguments.bowlId", b)]))].
Proof.
  intros Hb Ht. eexists. split; [reflexivity|].
  split; [reflexivity|]. split; [reflexivity|].
  assert (Hid : bowlId_of [("field", JStr (info_fieldName ctx));
                           ("arguments", JObj (args ctx))] = Some b)
    by (apply (bowlId_of_argument _ (args ctx)); [reflexivity|assumption..]).
  split; [exact Hid|].
  intros TABLE_NAME send random1 random2 put result H.
  destruct (evicting_result _ _ _ _ _ _ _ H) as (payload & _ & -> & Hs & He).
  rewrite Hid.
  destruct (forward_evicting_result (Some b) payload Hs He) as [_ Hjs].
  cbv zeta in Hjs. rewrite Hjs. reflexivity.
Qed.

Lemma js_request_passes_bowlId_witness :
  exists event,
    invoked_event (PickFruitJSResolver_request
                     {| info_fieldName := "pickFruitJS";
                        args := [("bowlId", JNum 1)] |}) = Some event
    /\ bowlId_of event = Some (JNum 1).
Proof.
  destruct (js_request_passes_bowlId
              {| info_fieldName := "pickFruitJS";
                 args := [("bowlId", JNum 1)] |}
              (JNum 1) eq_refl eq_refl)
    as (event & He & _ & _ & Hb & _).
  exists event. split; assumption.
Defined.

(** ** Faults and leftovers of the JS template *)

Lemma js_callback_not_null evict h :
  evict <> JNull ->
  js_callback evict h
  = (Returned tt,
     {| ctx_result := ctx_result h; evicted := evicted h ++ [js_call evict] |}).
Proof.
  intros Hn. destruct evict; try reflexivity. contradiction.
Qed.

Lemma foreach_until_null l h :
  foreach l js_callback h
  = (if existsb VTL.isNull l then TypeError else Returned tt,
     {| ctx_result := ctx_result h;
        evicted := evicted h ++ map js_call (before_null l) |}).
Proof.
  revert h. induction l as [|x l IH]; intros h.
  - cbn. rewrite app_nil_r. destruct h; reflexivity.
  - destruct (VTL.isNull x) eqn:E.
    + destruct x; try discriminate. cbn. rewrite app_nil_r.
      destruct h; reflexivity.
    + assert (Hx : x <> JNull) by (intros ->; discriminate).
      cbn [foreach]. unfold bind at 1.
      rewrite (js_callback_not_null x h Hx), IH.
      cbn [existsb ctx_result evicted]. rewrite E. cbn [orb].
      replace (before_null (x :: l)) with (x :: before_null l)
        by (destruct x; try reflexivity; contradiction).
      cbn [map]. rewrite <- app_assoc. reflexivity.
Qed.

(** X9: on a result without truthy error whose sentinel is a list, the
    JS template makes the eviction calls of the elements that come
    before the first [null] element, each with [evict[0]], [evict[1]]
    and [evict[2]]; if there is a [null] element it then throws, and
    otherwise it returns the result without the sentinel. *)
Theorem js_evicts_until_null_element r l :
  JS.truthy_ref (get_field "error" r) = false ->
  get_field sentinel r = Some (JArr l) ->
  run js_response r
  = (if existsb VTL.isNull l then TypeError
     else Returned (remove_field sentinel r),
     map js_call (before_null l)).
Proof.
  intros He Hs. rewrite run_eq.
  unfold PickFruitJSResolver.response, bind, result, when, ret, remove.
  cbn [ctx_result].
  assert (Hgo :
    fst (let (o, h') :=
           (let (o, h') := foreach l js_callback
                             {| ctx_result := r; evicted := [] |} in
            match o with
            | Returned _ =>
                (Returned tt,
                 {| ctx_result := remove_field sentinel (ctx_result h');
                    evicted := evicted h' |})
            | Raised msg ty => (Raised msg ty, h')
            | TypeError => (TypeError, h')
            end) in
         match o with
         | Returned _ => (Returned (ctx_result h'), h')
         | Raised msg ty => (Raised msg ty, h')
         | TypeError => (TypeError, h')
         end)
    = (if existsb VTL.isNull l then TypeError
       else Returned (remove_field sentinel r))
    /\ evicted (snd (let (o, h') :=
           (let (o, h') := foreach l js_callback
                             {| ctx_result := r; evicted := [] |} in
            match o with
            | Returned _ =>
                (Returned tt,
                 {| ctx_result := remove_field sentinel (ctx_result h');
                    evicted := evicted h' |})
            | Raised msg ty => (Raised msg ty, h')
            | TypeError => (TypeError, h')
            end) in
         match o with
         | Returned _ => (Returned (ctx_result h'), h')
         | Raised msg ty => (Raised msg ty, h')
         | TypeError => (TypeError, h')
         end))
    = map js_call (before_null l)).
  { rewrite foreach_until_null.
    destruct (existsb VTL.isNull l); split; reflexivity. }
  destruct Hgo as [Ho Ht].
  destruct (get_field "error" r) as [e|]; cbn [JS.truthy_ref] in He;
    [rewrite He|]; cbn [ctx_result];
    rewrite Hs; cbn [JS.truthy js_forEach];
    rewrite Ho, Ht; reflexivity.
Qed.

Lemma js_evicts_until_null_element_witness :
  run js_response
    [(sentinel, JArr [JArr [JStr "Query"; JStr "fruit"]; JNull;
                      JArr [JStr "Query"; JStr "basket"; JObj []]])]
  = (TypeError,
     [Evict (Some (JStr "Query")) (Some (JStr "fruit")) None]).
Proof.
  apply (js_evicts_until_null_element
           [(sentinel, JArr [JArr [JStr "Query"; JStr "fruit"]; JNull;
                             JArr [JStr "Query"; JStr "basket"; JObj []]])]
           [JArr [JStr "Query"; JStr "fruit"]; JNull;
            JArr [JStr "Query"; JStr "basket"; JObj []]]);
    reflexivity.
Defined.

(** X10: on a result without truthy error whose sentinel is truthy and
    not a list (a number, a string, [true], an object), the JS template
    throws at [forEach]: it makes no eviction call and returns
    nothing. *)
Theorem js_throws_on_non_list_sentinel r v :
  JS.truthy_ref (get_field "error" r) = false ->
  get_field sentinel r = Some v ->
  JS.truthy v = true ->
  is_array v = false ->
  run js_response r = (TypeError, []).
Proof.
  intros He Hs Ht Ha. rewrite run_eq.
  unfold PickFruitJSResolver.response, bind, result, when, ret.
  cbn [ctx_result].
  destruct (get_field "error" r) as [e|]; cbn [JS.truthy_ref] in He;
    [rewrite He|]; cbn [ctx_result];
    rewrite Hs, Ht; destruct v; try discriminate; reflexivity.
Qed.

Lemma js_throws_on_non_list_sentinel_witness :
  run js_response [(sentinel, JStr "Query"); ("type", JStr "apple")]
  = (TypeError, []).
Proof.
  apply (js_throws_on_non_list_sentinel
           [(sentinel, JStr "Query"); ("type", JStr "apple")] (JStr "Query"));
    reflexivity.
Defined.

(** X11: whenever the VTL template or the JS template returns a
    result, every field of the inbound result other than the sentinel
    is in it with the same value. *)
Theorem forwarder_keeps_other_fields r r' calls :
  run vtl_response r = (Returned r', calls)
  \/ run js_response r = (Returned r', calls) ->
  forall k, k <> sentinel -> get_field k r' = get_field k r.
Proof.
  intros [H|H].
  - apply (vtl_response_frame r r' calls H).
  - apply (js_response_frame r r' calls H).
Qed.

Lemma forwarder_keeps_other_fields_witness :
  get_field "type" [("type", JStr "apple"); ("quantity", JNum 5)]
  = get_field "type" null_sentinel_result.
Proof.
  apply (forwarder_keeps_other_fields null_sentinel_result
           [("type", JStr "apple"); ("quantity", JNum 5)] []).
  - left. reflexivity.
  - discriminate.
Defined.

(** X12: a result returned by the JS template holds the sentinel field
    only if the inbound sentinel was falsy; the template then has made
    no eviction call and returns the inbound result as it came. *)
Theorem js_returns_only_falsy_sentinel r r' calls v :
  run js_response r = (Returned r', calls) ->
  get_field sentinel r' = Some v ->
  JS.truthy v = false /\ r' = r /\ calls = [].
Proof.
  rewrite run_eq.
  destruct (js_response {| ctx_result := r; evicted := [] |})
    as [o h'] eqn:E.
  cbn [fst snd]. intros H Hv.
  apply pair_equal_spec in H. destruct H as [-> Hcalls].
  destruct (js_response_returned _ _ _ _ E) as (_ & He & Hs & Hr).
  rewrite Hv in Hs. cbn [JS.truthy_ref] in Hs.
  assert (Heq : r' = r).
  { destruct Hr as [Hr|Hr]; [exact Hr|].
    rewrite Hr, get_field_remove_same in Hv. discriminate Hv. }
  split; [exact Hs|]. split; [exact Heq|].
  subst r'. rewrite js_response_falsy in E.
  - inversion E; subst. reflexivity.
  - exact He.
  - rewrite Hv. exact Hs.
Qed.

Lemma js_returns_only_falsy_sentinel_witness :
  JS.truthy JNull = false
  /\ null_sentinel_result = null_sentinel_result
  /\ @nil eviction = [].
Proof.
  apply (js_returns_only_falsy_sentinel
           null_sentinel_result null_sentinel_result [] JNull);
    reflexivity.
Defined.

(** ** The template of the article *)

Lemma run_article r :
  run Article.responseMappingTemplate r
  = (Returned (if VTL.isNull (VTL.prop (JObj r) sentinel) then r
               else remove_field sentinel r),
     vtl_calls r).
Proof.
  rewrite run_eq.
  unfold Article.responseMappingTemplate, vtl_calls, bind, result, when, ret,
    remove.
  cbn [ctx_result evicted].
  destruct (VTL.isNull (VTL.prop (JObj r) sentinel));
    cbn [negb ctx_result evicted fst snd]; [reflexivity|].
  rewrite foreach_evictions. reflexivity.
Qed.

(** X13: the VTL template printed in the article does what the VTL
    template of the construct does on every result that carries no
    error and whose sentinel is not present with the value null.  On a
    null sentinel the article's template returns the result with the
    sentinel still in it; and it has no error test, so it returns on
    every result. *)
Theorem article_template_against_construct r :
  (VTL.isNull (VTL.prop (JObj r) "error") = true ->
   get_field sentinel r <> Some JNull ->
   run Article.responseMappingTemplate r = run vtl_response r)
  /\ (get_field sentinel r = Some JNull ->
      run Article.responseMappingTemplate r = (Returned r, []))
  /\ exists r', run Article.responseMappingTemplate r
                = (Returned r', vtl_calls r).
Proof.
  split; [|split].
  - intros He Hs. rewrite run_article, run_vtl_response. cbv zeta.
    rewrite He.
    destruct (VTL.isNull (VTL.prop (JObj r) sentinel)) eqn:E; [|reflexivity].
    unfold VTL.prop in E.
    destruct (get_field sentinel r) as [[]|] eqn:Hg; try discriminate.
    + contradiction Hs. reflexivity.
    + rewrite (remove_field_absent _ _ Hg). reflexivity.
  - intros Hs. rewrite run_article. unfold vtl_calls, VTL.prop.
    rewrite Hs. reflexivity.
  - eexists. apply run_article.
Qed.

Lemma article_template_against_construct_witness :
  run Article.responseMappingTemplate null_sentinel_result
  = (Returned null_sentinel_result, []).
Proof.
  apply (proj1 (proj2 (article_template_against_construct
                         null_sentinel_result))).
  reflexivity.
Defined.

(** ** The construct *)

Ltac each_props props :=
  destruct props as [name table schemaFile [[|]|] [[|]|]].

(** X14: whatever the props, every Lambda function of a FruitApi runs
    against the table of the props and holds the one grant its code
    needs: the function that sends the read is granted read access and
    not write access, and each function that sends a write is granted
    write access and not read access. *)
Theorem functions_hold_the_grant_they_need props f :
  In f (Cdk.functions (Cdk.construct props)) ->
  forall send random1 random2 event,
    let command := Cdk.sent (Cdk.code f) (Cdk.environment_TABLE_NAME f)
                     send random1 random2 event in
    let granted g := In g (Cdk.grants (Cdk.construct props)) in
    table_of command = Cdk.table props
    /\ if is_write command
       then granted (Cdk.grantWriteData (Cdk.function_id f))
            /\ ~ granted (Cdk.grantReadData (Cdk.function_id f))
       else granted (Cdk.grantReadData (Cdk.function_id f))
            /\ ~ granted (Cdk.grantWriteData (Cdk.function_id f)).
Proof.
  intros Hin send random1 random2 event. cbv zeta.
  each_props props; cbn in Hin;
    repeat (destruct Hin as [<-|Hin]; [|]); try contradiction;
    (split; [reflexivity|]); cbn;
    (split; [tauto|]); intros H;
    repeat (destruct H as [H|H]; [discriminate H|]); exact H.
Qed.

Lemma functions_hold_the_grant_they_need_witness :
  In (Cdk.grantWriteData "PickFruitJSFunction")
     (Cdk.grants (Cdk.construct
        {| Cdk.name := "fruit-api-with-cache";
           Cdk.table := "FruitTable";
           Cdk.schemaFile := "cdk/schema-cached.graphql";
           Cdk.enableCache := Some true;
           Cdk.enableCacheEviction := Some true |})).
Proof.
  apply (functions_hold_the_grant_they_need
           {| Cdk.name := "fruit-api-with-cache";
              Cdk.table := "FruitTable";
              Cdk.schemaFile := "cdk/schema-cached.graphql";
              Cdk.enableCache := Some true;
              Cdk.enableCacheEviction := Some true |}
           {| Cdk.function_id := "PickFruitJSFunction";
              Cdk.runtime := "NODEJS_22_X";
              Cdk.handler := "index.handler";
              Cdk.timeout := 10;
              Cdk.environment_TABLE_NAME := "FruitTable";
              Cdk.code := Cdk.PickFruitJSCode |}
           ltac:(cbn; tauto)
           (fun _ => Rejected) 0%Q 0%Q []).
Defined.

(** X15: whatever the props, each resolver of a FruitApi is backed by
    the Lambda code written for it: FruitResolver by FruitFunction,
    PickFruitResolver by PickFruitFunction, and the resolvers that
    carry an evicting template by the handlers that emit the sentinel,
    the VTL template behind PickFruitVtlFunction and the JS code behind
    PickFruitJSFunction; and no two resolvers answer the same field. *)
Theorem resolvers_are_backed_by_their_code props :
  let api := Cdk.construct props in
  (forall r, In r (Cdk.resolvers api) ->
     backing_code api r
     = Some match Cdk.resolver r with
            | Cdk.default_templates => Cdk.FruitCode
            | Cdk.lambdaResult => Cdk.PickFruitCode
            | Cdk.vtl_template _ => Cdk.PickFruitVtlCode
            | Cdk.js_runtime _ _ => Cdk.PickFruitJSCode
            end)
  /\ NoDup (map (fun r => (Cdk.typeName r, Cdk.fieldName r))
                (Cdk.resolvers api)).
Proof.
  cbv zeta. split.
  - intros r Hin.
    each_props props; cbn in Hin;
      repeat (destruct Hin as [<-|Hin]; [reflexivity|]); contradiction.
  - each_props props; cbn;
      repeat (constructor; [cbn; intuition discriminate|]); constructor.
Qed.

Lemma resolvers_are_backed_by_their_code_witness :
  backing_code
    (Cdk.construct {| Cdk.name := "fruit-api-with-cache";
                      Cdk.table := "FruitTable";
                      Cdk.schemaFile := "cdk/schema-cached.graphql";
                      Cdk.enableCache := Some true;
                      Cdk.enableCacheEviction := Some true |})
    {| Cdk.resolver_id := "PickFruitJSResolver";
       Cdk.typeName := "Mutation";
       Cdk.fieldName := "pickFruitJS";
       Cdk.dataSource := "PickFruitJSDataSource";
       Cdk.cachingConfig := None;
       Cdk.resolver := Cdk.js_runtime PickFruitJSResolver_request
                                      js_response |}
  = Some Cdk.PickFruitJSCode.
Proof.
  apply (proj1 (resolvers_are_backed_by_their_code
                  {| Cdk.name := "fruit-api-with-cache";
                     Cdk.table := "FruitTable";
                     Cdk.schemaFile := "cdk/schema-cached.graphql";
                     Cdk.enableCache := Some true;
                     Cdk.enableCacheEviction := Some true |})).
  cbn. tauto.
Defined.

(** X16: whatever the props, a resolver is given a caching
    configuration only in an API whose cache is created; it is then the
    resolver of [Query.fruit], it keeps an entry as long as the cache
    does, and its caching keys are the keys of the instruction an
    evicting handler returns for an invocation with a [bowlId], with
    [$] in front.  The cache is created on the flag [enableCache]
    alone.  On the flag [enableCacheEviction] alone, cache or no cache,
    the construct declares PickFruitVtl and PickFruitJS, each with its
    function, write grant, data source and resolver, after the two
    declarations it always makes; the resolver with the VTL template
    is PickFruitVtlResolver and the one with the JS code is
    PickFruitJSResolver. *)
Theorem caching_follows_the_cache props :
  let api := Cdk.construct props in
  let eviction := Cdk.enabled (Cdk.enableCacheEviction props) in
  (forall r config,
     In r (Cdk.resolvers api) ->
     Cdk.cachingConfig r = Some config ->
     exists cache,
       Cdk.cache api = Some cache
       /\ Cdk.ttl config = Cdk.cache_ttl cache
       /\ (Cdk.typeName r, Cdk.fieldName r) = ("Query", "fruit")
       /\ forall TABLE_NAME send random1 random2 event b result,
            bowlId_of event = Some b ->
            snd (PickFruitVtlFunction_handler TABLE_NAME send random1 random2
                   event) = Resolved result
            \/ snd (PickFruitJSFunction_handler TABLE_NAME send random1
                      random2 event) = Resolved result ->
            exists operationType fieldName keyArguments,
              get_field sentinel result
              = Some (JArr [JArr [operationType; fieldName;
                                  JObj keyArguments]])
              /\ Cdk.cachingKeys config
                 = map (String.append "$") (keys keyArguments))
  /\ (Cdk.cache api <> None <-> Cdk.enabled (Cdk.enableCache props) = true)
  /\ map Cdk.function_id (Cdk.functions api)
     = ["FruitFunction"; "PickFruitFunction"]
       ++ (if eviction then ["PickFruitVtlFunction"; "PickFruitJSFunction"]
           else [])
  /\ Cdk.grants api
     = [Cdk.grantReadData "FruitFunction";
        Cdk.grantWriteData "PickFruitFunction"]
       ++ (if eviction
           then [Cdk.grantWriteData "PickFruitVtlFunction";
                 Cdk.grantWriteData "PickFruitJSFunction"]
           else [])
  /\ Cdk.dataSources api
     = [("FruitDataSource", "FruitFunction");
        ("PickFruitDataSource", "PickFruitFunction")]
       ++ (if eviction
           then [("PickFruitVtlDataSource", "PickFruitVtlFunction");
                 ("PickFruitJSDataSource", "PickFruitJSFunction")]
           else [])
  /\ map Cdk.resolver_id (Cdk.resolvers api)
     = ["FruitResolver"; "PickFruitResolver"]
       ++ (if eviction then ["PickFruitVtlResolver"; "PickFruitJSResolver"]
           else [])
  /\ (forall r,
        In r (Cdk.resolvers api) ->
        (Cdk.resolver r = Cdk.vtl_template vtl_response
         <-> Cdk.resolver_id r = "PickFruitVtlResolver")
        /\ (Cdk.resolver r
            = Cdk.js_runtime PickFruitJSResolver_request js_response
            <-> Cdk.resolver_id r = "PickFruitJSResolver")).
Proof.
  cbv zeta. split; [|split; [|split; [|split; [|split; [|split]]]]].
  - intros r config Hin Hc.
    assert (Hkeys :
      forall TABLE_NAME send random1 random2 event b result,
        bowlId_of event = Some b ->
        snd (PickFruitVtlFunction_handler TABLE_NAME send random1 random2
               event) = Resolved result
        \/ snd (PickFruitJSFunction_handler TABLE_NAME send random1
                  random2 event) = Resolved result ->
        exists operationType fieldName keyArguments,
          get_field sentinel result
          = Some (JArr [JArr [operationType; fieldName; JObj keyArguments]])
          /\ FruitResolver_cachingKeys
             = map (String.append "$") (keys keyArguments)).
    { intros TABLE_NAME send random1 random2 event b result Hb H.
      assert (Hs : get_field sentinel result
                   = Some (returned_batch [handler_instruction event]))
        by (destruct H as [H|H]; exact (handler_batch _ _ _ _ _ _ H)).
      rewrite Hs. unfold returned_batch, returned_instruction,
        handler_instruction.
      cbn [map lit_operationType lit_fieldName lit_keyArguments].
      rewrite Hb. cbn [literal].
      eexists. eexists. eexists. split; reflexivity. }
    each_props props; cbn in Hin;
      repeat (destruct Hin as [<-|Hin]; [|]); try contradiction;
      cbn in Hc; try discriminate Hc;
      injection Hc as <-; eexists;
      (split; [reflexivity|split; [reflexivity|split; [reflexivity|]]]);
      exact Hkeys.
  - each_props props; cbn; split; intros H;
      try reflexivity; try discriminate; try (contradiction H; reflexivity).
  - each_props props; reflexivity.
  - each_props props; reflexivity.
  - each_props props; reflexivity.
  - each_props props; reflexivity.
  - intros r Hin.
    each_props props; cbn in Hin;
      repeat (destruct Hin as [<-|Hin]; [|]); try contradiction;
      cbn [Cdk.resolver Cdk.resolver_id];
      (split; split; intros H; try reflexivity; discriminate H).
Qed.

Lemma caching_follows_the_cache_witness :
  let props := {| Cdk.name := "fruit-api-with-cache";
                  Cdk.table := "FruitTable";
                  Cdk.schemaFile := "cdk/schema-cached.graphql";
                  Cdk.enableCache := Some true;
                  Cdk.enableCacheEviction := Some true |} in
  Cdk.cache (Cdk.construct props) <> None
  /\ exists cache,
       Cdk.cache (Cdk.construct props) = Some cache
       /\ 300%Z = Cdk.cache_ttl cache.
Proof.
  intros props. split.
  - apply (proj1 (proj2 (caching_follows_the_cache props))).
    reflexivity.
  - destruct (proj1 (caching_follows_the_cache props)
                {| Cdk.resolver_id := "FruitResolver";
                   Cdk.typeName := FruitResolver_typeName;
                   Cdk.fieldName := FruitResolver_fieldName;
                   Cdk.dataSource := "FruitDataSource";
                   Cdk.cachingConfig :=
                     Some {| Cdk.ttl := 300;
                             Cdk.cachingKeys := FruitResolver_cachingKeys |};
                   Cdk.resolver := Cdk.default_templates |}
                {| Cdk.ttl := 300;
                   Cdk.cachingKeys := FruitResolver_cachingKeys |})
      as (cache & Hc & Httl & _).
    + left. reflexivity.
    + reflexivity.
    + exists cache. split; assumption.
Defined.

(** ** A write that fails *)

(** X17: a mutation handler settles as its write does: when DynamoDB
    rejects the [PutItemCommand] the handler rejects, with no result
    and so no eviction instruction for a template to forward; a
    handler that resolves has had its write accepted. *)
Theorem rejected_write_rejects_the_mutation
  TABLE_NAME send random1 random2 event handler :
  In handler [PickFruitFunction_handler; PickFruitVtlFunction_handler;
              PickFruitJSFunction_handler] ->
  let put := fst (handler TABLE_NAME send random1 random2 event) in
  let settlement := snd (handler TABLE_NAME send random1 random2 event) in
  (send put = Rejected -> settlement = Rejected)
  /\ (forall result, settlement = Resolved result ->
        exists output, send put = Resolved output).
Proof.
  intros Hin. cbv zeta.
  assert (Hplain : handler = PickFruitFunction_handler
                   \/ handler = pickFruit_evicting)
    by (destruct Hin as [<-|[<-|[<-|[]]]]; auto).
  destruct Hplain as [-> | ->].
  - unfold PickFruitFunction_handler. cbv zeta. cbn [fst snd].
    destruct (send _) as [output|].
    + split; [discriminate|]. intros result _. exists output. reflexivity.
    + split; [reflexivity|]. discriminate.
  - unfold pickFruit_evicting. cbv zeta. cbn [fst snd].
    destruct (send _) as [output|].
    + split; [discriminate|]. intros result _. exists output. reflexivity.
    + split; [reflexivity|]. discriminate.
Qed.

Lemma rejected_write_rejects_the_mutation_witness :
  snd (PickFruitVtlFunction_handler "FruitTable" (fun _ => Rejected)
         (1 # 3)%Q (9 # 10)%Q [("arguments", JObj [("bowlId", JNum 1)])])
  = Rejected.
Proof.
  apply (proj1 (rejected_write_rejects_the_mutation
                  "FruitTable" (fun _ => Rejected) (1 # 3)%Q (9 # 10)%Q
                  [("arguments", JObj [("bowlId", JNum 1)])]
                  PickFruitVtlFunction_handler
                  ltac:(right; left; reflexivity))).
  reflexivity.
Defined.
